(** * RS_Scope: a shallow embedding of the Rohde & Schwarz oscilloscope driver

    The Python class [RS_Scopes] of [RS_Scope.py] issues SCPI commands through
    the RsInstrument library, polls the instrument until it is done, and saves
    traces to CSV files.  Its methods are embedded here as computations over an
    explicit world: the session object, the state of the instrument behind the
    RsInstrument calls, a clock, the files on disk and the sequence of
    observable events (driver calls, printed lines, sleeps, saved files). *)

From Stdlib Require Import ZArith QArith Qround Lia Ascii.
From stdpp Require Import base option list strings pretty gmap.

Local Open Scope Z_scope.

(** ** Python values used by the driver *)

(** The exception classes that can reach a handler of [RS_Scope.py]. *)
Inductive exn_class :=
  | RsInstrException | TypeError | ValueError | IndexError
  | UnboundLocalError | AttributeError.

(** Every exception of the model is built with one string argument: the
    message a handler reads as [ex.args[0]]. *)
Record exn := Exn { exn_cls : exn_class; exn_msg : string }.

(** A number given as a record length: a Python int, or a float, kept as the
    rational number it denotes. Only comparisons are made on it. *)
Inductive num := Int (z : Z) | Float (q : Q).

Definition num_val (n : num) : Q :=
  match n with Int z => inject_Z z | Float q => q end.

(** Python's [a > b] and [a < b] on numbers. *)
Definition num_gt (a b : num) : bool := negb (Qle_bool (num_val a) (num_val b)).
Definition num_lt (a b : num) : bool := num_gt b a.

(** [self.channels]: a list of channel numbers, or one bare number. *)
Inductive channel_set := Single (c : Z) | ChanList (cs : list Z).

(** One field of a CSV row, and the rows of a file as [csv.writer] gets them. *)
Inductive cell := CStr (s : string) | CNum (q : Q).
Definition csv := list (list cell).

(** ** Strings *)

Definition is_space (a : ascii) : bool :=
  let n := Ascii.nat_of_ascii a in
  bool_decide (n = 32 ∨ 9 ≤ n ≤ 13)%nat.

Definition digit_of (a : ascii) : option Z :=
  let n := Z.of_nat (Ascii.nat_of_ascii a) in
  if bool_decide (48 ≤ n ≤ 57) then Some (n - 48) else None.

Fixpoint lstrip (s : string) : string :=
  match s with
  | String a s' => if is_space a then lstrip s' else s
  | EmptyString => EmptyString
  end.

(** The digits of a literal, most significant first; trailing white space is
    accepted, anything else is not. *)
Fixpoint read_digits (acc : Z) (seen : bool) (s : string) : option Z :=
  match s with
  | EmptyString => if seen then Some acc else None
  | String a s' =>
      match digit_of a with
      | Some d => read_digits (10 * acc + d) true s'
      | None => if seen && bool_decide (lstrip s = EmptyString) then Some acc else None
      end
  end.

(** Python's [int(s)] on a string: optional white space, an optional sign and
    decimal digits.  [None] stands for the [ValueError].  The forms with
    underscores or non-ASCII digits are read as errors here. *)
Definition py_int (s : string) : option Z :=
  match lstrip s with
  | String "-" s' => Z.opp <$> read_digits 0 false s'
  | String "+" s' => read_digits 0 false s'
  | s' => read_digits 0 false s'
  end.

(** Python's [int(x)] on a float: truncation towards zero. *)
Definition int_of_float (q : Q) : Z :=
  if Qle_bool 0 q then Qfloor q else Qceiling q.

(** Python's [sub in s] on strings. *)
Fixpoint contains (sub s : string) : bool :=
  String.prefix sub s ||
  match s with
  | EmptyString => false
  | String _ s' => contains sub s'
  end.

(** [n] blanks: the indentation that a backslash-continued literal keeps. *)
Fixpoint blanks (n : nat) : string :=
  match n with
  | O => EmptyString
  | S n' => String " " (blanks n')
  end.

(** ** The session object *)

(** The attributes of an [RS_Scopes] object.  The four that [__init__] sets
    inside its [try] block may be missing on an object whose session could not
    be opened. *)
Record Session := {
  visa_timeout : option Z;
  opc_timeout : option Z;
  acquisition_timeout : option Z;
  instrument_status_checking : option bool;
  channels : channel_set;
  instr_path : string;
  path : string;
  folder : option string;
  fname : string;
  file_format : string;
  screenshot_format : string;
  verbose : bool;
  save : bool
}.

Definition set_fname (v : string) (s : Session) : Session :=
  {| visa_timeout := visa_timeout s; opc_timeout := opc_timeout s;
     acquisition_timeout := acquisition_timeout s;
     instrument_status_checking := instrument_status_checking s;
     channels := channels s; instr_path := instr_path s; path := path s;
     folder := folder s; fname := v; file_format := file_format s;
     screenshot_format := screenshot_format s; verbose := verbose s;
     save := save s |}.

Definition set_channels (v : channel_set) (s : Session) : Session :=
  {| visa_timeout := visa_timeout s; opc_timeout := opc_timeout s;
     acquisition_timeout := acquisition_timeout s;
     instrument_status_checking := instrument_status_checking s;
     channels := v; instr_path := instr_path s; path := path s;
     folder := folder s; fname := fname s; file_format := file_format s;
     screenshot_format := screenshot_format s; verbose := verbose s;
     save := save s |}.

Definition set_timeouts (visa opc acq : option Z) (chk : option bool)
    (s : Session) : Session :=
  {| visa_timeout := visa; opc_timeout := opc; acquisition_timeout := acq;
     instrument_status_checking := chk;
     channels := channels s; instr_path := instr_path s; path := path s;
     folder := folder s; fname := fname s; file_format := file_format s;
     screenshot_format := screenshot_format s; verbose := verbose s;
     save := save s |}.

Definition set_visa_timeout (v : Z) (s : Session) : Session :=
  set_timeouts (Some v) (opc_timeout s) (acquisition_timeout s)
               (instrument_status_checking s) s.
Definition set_opc_timeout (v : Z) (s : Session) : Session :=
  set_timeouts (visa_timeout s) (Some v) (acquisition_timeout s)
               (instrument_status_checking s) s.
Definition set_acquisition_timeout (v : Z) (s : Session) : Session :=
  set_timeouts (visa_timeout s) (opc_timeout s) (Some v)
               (instrument_status_checking s) s.
Definition set_instrument_status_checking (v : bool) (s : Session) : Session :=
  set_timeouts (visa_timeout s) (opc_timeout s) (acquisition_timeout s) (Some v) s.

(** An object on which [__init__] has not run yet.  The attributes that have
    no [None] here are assigned by [__init__] before anything reads them. *)
Definition fresh_object : Session :=
  {| visa_timeout := None; opc_timeout := None; acquisition_timeout := None;
     instrument_status_checking := None;
     channels := ChanList []; instr_path := ""; path := ""; folder := None;
     fname := ""; file_format := ""; screenshot_format := ""; verbose := false;
     save := false |}.

(** ** The RsInstrument boundary *)

(** What a call into RsInstrument gives back: the time it took (milliseconds),
    a value or the message of the [RsInstrException] it raised, and the state
    the instrument is left in. *)
Inductive answer (A : Type) := Value (a : A) | Error (msg : string).
Arguments Value {A} a.
Arguments Error {A} msg.

Record reply (D A : Type) := Reply { latency : N; result : answer A; next : D }.
Arguments Reply {D A} latency result next.
Arguments latency {D A} r.
Arguments result {D A} r.
Arguments next {D A} r.

(** The methods of RsInstrument that [RS_Scope.py] calls, over an instrument
    state [D].  The library is not part of the repository: its behaviour is a
    parameter of every definition below. *)
Record Driver (D : Type) := {
  drv_assert_minimum_version : string → D → reply D unit;
  drv_open : string → D → reply D unit;
  drv_clear_status : D → reply D unit;
  drv_reset : D → reply D unit;
  drv_write_str : string → D → reply D unit;
  drv_query : string → D → reply D string;
  drv_query_str : string → D → reply D string;
  drv_query_opc : D → reply D bool;
  drv_query_bin_or_ascii_float_list : string → D → reply D (list Q)
}.
Arguments drv_assert_minimum_version {D} d v s.
Arguments drv_open {D} d rsrc s.
Arguments drv_clear_status {D} d s.
Arguments drv_reset {D} d s.
Arguments drv_write_str {D} d cmd s.
Arguments drv_query {D} d cmd s.
Arguments drv_query_str {D} d cmd s.
Arguments drv_query_opc {D} d s.
Arguments drv_query_bin_or_ascii_float_list {D} d cmd s.

(** A call into RsInstrument, as it is recorded among the events. *)
Inductive request :=
  | AssertMinimumVersion (v : string)
  | Open (resource : string)
  | ClearStatus
  | Reset
  | WriteStr (cmd : string)
  | Query (cmd : string)
  | QueryStr (cmd : string)
  | QueryOpc
  | QueryFloatList (cmd : string).

Inductive event :=
  | Call (r : request)
  | Print (line : string)
  | Sleep (ms : Z)
  | SaveFile (file : string).

Global Instance request_eq_dec : EqDecision request.
Proof. solve_decision. Defined.
Global Instance event_eq_dec : EqDecision event.
Proof. solve_decision. Defined.

(** ** Computations *)

(** How a method ends: it returns, it raises, or it is still polling when the
    bound on polling rounds that the model follows is reached. *)
Inductive outcome (A : Type) := Ret (a : A) | Raise (e : exn) | Hang.
Arguments Ret {A} a.
Arguments Raise {A} e.
Arguments Hang {A}.

Section Scope.

Context {D : Type} (drv : Driver D).

(** Python's float formatting inside an f-string, and numpy's [linspace]
    (defined when the number of points is not negative). *)
Variable repr_float : Q → string.
Variable linspace : Q → Q → Z → list Q.

(** [dir.dropbox] of [Init_Directories()], the default output directory. *)
Variable dir_dropbox : string.

(** The clock counts milliseconds; [time()] reads it and [sleep] advances it,
    as does the latency of every driver call. *)
Record world := World {
  self : Session;
  instr : D;
  clock : Z;
  files : gmap string csv;
  trace : list event
}.

Definition M (A : Type) : Type := world → outcome A * world.

Global Instance M_ret : MRet M := λ A a w, (Ret a, w).
Global Instance M_bind : MBind M := λ A B f m w,
  match m w with
  | (Ret a, w') => f a w'
  | (Raise e, w') => (Raise e, w')
  | (Hang, w') => (Hang, w')
  end.

Definition raise {A} (c : exn_class) (msg : string) : M A :=
  λ w, (Raise (Exn c msg), w).

Definition hang {A} : M A := λ w, (Hang, w).

(** [try: body except Exception as ex: handler ex]. *)
Definition try_except {A} (body : M A) (handler : exn → M A) : M A := λ w,
  match body w with
  | (Raise e, w') => handler e w'
  | r => r
  end.

Definition when (b : bool) (m : M unit) : M unit := if b then m else mret tt.

Definition get_self : M Session := λ w, (Ret (self w), w).
Definition put_self (s : Session) : M unit := λ w,
  (Ret tt, World s (instr w) (clock w) (files w) (trace w)).
Definition modify_self (f : Session → Session) : M unit :=
  s ← get_self; put_self (f s).

Definition emit (e : event) : M unit := λ w,
  (Ret tt, World (self w) (instr w) (clock w) (files w) (trace w ++ [e])).

Definition print (line : string) : M unit := emit (Print line).

Definition time : M Z := λ w, (Ret (clock w), w).

Definition sleep (ms : Z) : M unit := λ w,
  (Ret tt, World (self w) (instr w) (clock w + ms) (files w) (trace w ++ [Sleep ms])).

(** [os.path.isfile]. *)
Definition isfile (p : string) : M bool := λ w,
  (Ret (bool_decide (is_Some (files w !! p))), w).

(** [open(p, 'w')] followed by the rows written through [csv.writer]. *)
Definition write_csv (p : string) (rows : csv) : M unit := λ w,
  (Ret tt, World (self w) (instr w) (clock w) (<[p := rows]> (files w))
                 (trace w ++ [SaveFile p])).

(** A call into RsInstrument. *)
Definition call {A} (r : request) (f : D → reply D A) : M A := λ w,
  let rp := f (instr w) in
  let w' := World (self w) (next rp) (clock w + Z.of_N (latency rp)) (files w)
                  (trace w ++ [Call r]) in
  match result rp with
  | Value a => (Ret a, w')
  | Error msg => (Raise (Exn RsInstrException msg), w')
  end.

Definition write_str (cmd : string) : M unit :=
  call (WriteStr cmd) (drv_write_str drv cmd).
Definition query (cmd : string) : M string :=
  call (Query cmd) (drv_query drv cmd).
Definition query_str (cmd : string) : M string :=
  call (QueryStr cmd) (drv_query_str drv cmd).
Definition query_opc : M bool :=
  call QueryOpc (drv_query_opc drv).
Definition query_bin_or_ascii_float_list (cmd : string) : M (list Q) :=
  call (QueryFloatList cmd) (drv_query_bin_or_ascii_float_list drv cmd).

(** Reading an attribute that [__init__] may not have set. *)
Definition attribute {A} (name : string) (field : Session → option A) : M A :=
  s ← get_self;
  match field s with
  | Some v => mret v
  | None => raise AttributeError
              ("'RS_Scopes' object has no attribute '" +:+ name +:+ "'")
  end.

(** The world after some more events and nothing else. *)
Definition logged (es : list event) (w : world) : world :=
  World (self w) (instr w) (clock w) (files w) (trace w ++ es).

(** ** check_file_exists *)

(** The [while check] loop: [fuel] bounds the number of existence tests. *)
Fixpoint check_file_exists_loop (fuel : nat) (save_file format : string) : M string :=
  match fuel with
  | O => hang
  | S fuel' =>
      found ← isfile (save_file +:+ "." +:+ format);
      if found : bool then
        check_file_exists_loop fuel' (save_file +:+ "-(copy)") format
      else
        let save_file := save_file +:+ "." +:+ format in
        s ← get_self;
        when (verbose s) (print ("Saving file as " +:+ save_file));;
        mret save_file
  end.

(** A folder that is [None] or empty is falsy. *)
Definition base_name (s : Session) : string :=
  match folder s with
  | Some (String a f) => path s +:+ String a f +:+ fname s
  | _ => path s +:+ fname s
  end.

(** The name tested after [k] collisions: [k] markers, then the extension. *)
Definition candidate (save_file format : string) (k : nat) : string :=
  Nat.iter k (λ s, s +:+ "-(copy)") save_file +:+ "." +:+ format.

(** One more test than there are files is always enough (see
    [check_file_exists_returns]). *)
Definition check_file_exists (format : string) : M string := λ w,
  check_file_exists_loop (S (size (files w))) (base_name (self w)) format w.

(** ** write_file *)

(** [write_file(channel_data, field_headers)]: the header row is written when
    the list of headers is not empty. *)
Definition write_file (channel_data : csv) (field_headers : list string) : M unit :=
  s ← get_self;
  save_file ← check_file_exists (file_format s);
  write_csv save_file
    (match field_headers with
     | [] => channel_data
     | _ => (CStr <$> field_headers) :: channel_data
     end);;
  s ← get_self;
  when (verbose s)
    (print ("Save successful! File " +:+ blanks 18 +:+ fname s +:+ "." +:+
            file_format s +:+ " " +:+ blanks 20 +:+ "saved in " +:+ path s +:+ ".")).

(** ** opc_check *)

(** The loop of [opc_check]; [opc_timeout] is in seconds. *)
Fixpoint opc_check_loop (fuel : nat) (start_time : Z) : M unit :=
  match fuel with
  | O => hang
  | S fuel' =>
      done ← query_opc;
      if done : bool then mret tt
      else
        now ← time;
        limit ← attribute "opc_timeout" opc_timeout;
        if bool_decide (now - start_time > 1000 * limit) then print "OPC timeout."
        else sleep 100;; opc_check_loop fuel' start_time
  end.

Definition opc_check (fuel : nat) : M unit :=
  start_time ← time;
  opc_check_loop fuel start_time.

(** ** channel_select *)

(** [for x in l: body x]. *)
Fixpoint for_each {A} (l : list A) (body : A → M unit) : M unit :=
  match l with
  | [] => mret tt
  | x :: l' => body x;; for_each l' body
  end.

Definition channel_select (fuel : nat) : M unit :=
  write_str "CHAN:AOFF";;
  s ← get_self;
  cs ← match channels s with
       | ChanList cs => mret cs
       | Single c => put_self (set_channels (ChanList [c]) s);; mret [c]
       end;
  for_each cs (λ channel,
    write_str ("CHAN" +:+ pretty channel +:+ ":STAT ON");;
    opc_check fuel).

(** ** check_hist_values *)

Definition check_hist_values : M (string * string) :=
  record_length ← query "ACQ:POIN?";
  max_segments ← query "ACQ:COUN?";
  mret (record_length, max_segments).

(** ** query_data and query_time *)

Definition nl : string := String (ascii_of_nat 10) EmptyString.
Definition dquote : string := String (ascii_of_nat 34) EmptyString.

Definition class_name (c : exn_class) : string :=
  match c with
  | RsInstrException => "RsInstrException"
  | TypeError => "TypeError"
  | ValueError => "ValueError"
  | IndexError => "IndexError"
  | UnboundLocalError => "UnboundLocalError"
  | AttributeError => "AttributeError"
  end.

(** [query_data]: the samples of a channel, or [None] for the value [False]
    that flags the channel as unavailable. *)
Definition query_data (fuel : nat) (channel : Z) : M (option (list Q)) :=
  try_except
    (chan_data ← query_bin_or_ascii_float_list ("CHAN" +:+ pretty channel +:+ ":DATA?");
     opc_check fuel;;
     mret (Some chan_data))
    (λ ex,
     print ("Channel " +:+ pretty channel +:+
            " unavailable. Please check connection" +:+ nl);;
     print ("Exception raised: " +:+ exn_msg ex);;
     mret None).

(** [l[i]] on a Python list. *)
Definition index {A} (l : list A) (i : nat) : M A :=
  match l !! i with
  | Some x => mret x
  | None => raise IndexError "list index out of range"
  end.

(** [query_time]: the handler concatenates a string and the exception object
    itself, which raises a [TypeError] out of the method. *)
Definition query_time (fuel : nat) (channel : Z) : M (option (list Q)) :=
  try_except
    (chan_data ← query_bin_or_ascii_float_list
                   ("CHAN" +:+ pretty channel +:+ ":DATA:HEAD?");
     opc_check fuel;;
     start ← index chan_data 0;
     stop ← index chan_data 1;
     count ← index chan_data 2;
     let num := int_of_float count in
     if bool_decide (num < 0) then
       raise ValueError
         ("Number of samples, " +:+ pretty num +:+ ", must be non-negative.")
     else mret (Some (linspace start stop num)))
    (λ ex,
     print ("Channel " +:+ pretty channel +:+ " unavailable! " +:+ blanks 18 +:+
            "Please check connection" +:+ nl);;
     raise TypeError
       ("can only concatenate str (not " +:+ dquote +:+ class_name (exn_cls ex) +:+
        dquote +:+ ") to str")).

(** ** save_channels *)

(** The rows of [zip(first, *rest)]: as many as the shortest sequence has
    entries. *)
Fixpoint zip_star (first : list Q) (rest : list (list Q)) : list (list Q) :=
  match first with
  | [] => []
  | x :: first' =>
      match mapM head rest with
      | Some heads => (x :: heads) :: zip_star first' (tail <$> rest)
      | None => []
      end
  end.

(** [while not self.query_opc(): sleep(0.1)]. *)
Fixpoint save_channels_wait (fuel : nat) : M unit :=
  match fuel with
  | O => hang
  | S fuel' =>
      done ← query_opc;
      if done : bool then mret tt else sleep 100;; save_channels_wait fuel'
  end.

(** The [for channel in self.channels] loop, on the two lists it extends.
    An empty list of samples is falsy, like [False]. *)
Fixpoint save_channels_loop (fuel : nat) (cs : list Z)
    (headers : list string) (cols : list (list Q))
    : M (list string * list (list Q)) :=
  match cs with
  | [] => mret (headers, cols)
  | channel :: cs' =>
      let headers := headers ++ ["C_" +:+ pretty channel +:+ " (V)"] in
      data ← query_data fuel channel;
      save_channels_wait fuel;;
      let cols := match data with
                  | Some (x :: d) => cols ++ [x :: d]
                  | _ => cols
                  end in
      save_channels_loop fuel cs' headers cols
  end.

(** [self.channels[0]]. *)
Definition first_channel : M Z :=
  s ← get_self;
  match channels s with
  | ChanList cs => index cs 0
  | Single _ => raise TypeError "'int' object is not subscriptable"
  end.

(** The object a [for] statement iterates over [self.channels]. *)
Definition iter_channels : M (list Z) :=
  s ← get_self;
  match channels s with
  | ChanList cs => mret cs
  | Single _ => raise TypeError "'int' object is not iterable"
  end.

Definition save_channels (fuel : nat) : M unit :=
  start ← time;
  c0 ← first_channel;
  time_data ← query_time fuel c0;
  cs ← iter_channels;
  '(headers, cols) ← save_channels_loop fuel cs ["time (s)"] [];
  zipped ← match time_data with
           | Some t => mret (zip_star t cols)
           | None => raise TypeError "'bool' object is not iterable"
           end;
  write_file (fmap (M := list) CNum <$> (zipped : list (list Q))) headers;;
  s ← get_self;
  now ← time;
  when (verbose s)
    (print ("file save in " +:+ repr_float (inject_Z (now - start) / 1000) +:+ "s")).

(** ** save_history *)

(** [int(s)] on a string, with the [ValueError] of a malformed literal. *)
Definition int_of_str (s : string) : M Z :=
  match py_int s with
  | Some n => mret n
  | None => raise ValueError
              ("invalid literal for int() with base 10: '" +:+ s +:+ "'")
  end.

(** The body of the loop of [save_history], for the index [i] of [range]. *)
Definition save_history_segment (fuel : nat) (i : Z) : M unit :=
  c0 ← first_channel;
  write_str ("CHAN" +:+ pretty c0 +:+ ":HIST:CURR " +:+ pretty (i + 1));;
  opc_check fuel;;
  modify_self (λ s, set_fname (fname s +:+ pretty (i + 1)) s);;
  save_channels fuel.

Definition save_history (fuel : nat) : M unit :=
  try_except
    (available ← query_str "ACQ:AVA?";
     count ← int_of_str available;
     for_each (seqZ 0 count) (save_history_segment fuel))
    (λ ex, print ("An error occured!" +:+ exn_msg ex)).

(** ** average *)

(** The polling loop of [average]; [acquisition_timeout] is in seconds. *)
Fixpoint average_wait (fuel : nat) (start_time : Z) : M unit :=
  match fuel with
  | O => hang
  | S fuel' =>
      complete ← query "ACQ:AVER:COMP?";
      if bool_decide (complete = "1") then mret tt
      else
        now ← time;
        limit ← attribute "acquisition_timeout" acquisition_timeout;
        if bool_decide (now - start_time > 1000 * limit) then
          print "Average acquisition timeout."
        else
          s ← get_self;
          when (verbose s) (print "Acquiring...");;
          sleep 1000;;
          average_wait fuel' start_time
  end.

Definition average (fuel : nat) (N : Z) : M bool :=
  start_time ← time;
  try_except
    (write_str "ACQ:TYPE AVER";;
     write_str "ACQ:AVER:RES";;
     write_str "ACQ:NSIN:COUN 1";;
     write_str ("ACQ:AVER:COUN " +:+ pretty N);;
     write_str "RUN";;
     average_wait fuel start_time;;
     write_str "STOP";;
     mret true)
    (λ ex,
     print ("An error occured while acquiring " +:+ blanks 18 +:+ "the data " +:+
            nl +:+ exn_msg ex);;
     mret false).

(** ** calibration *)

Fixpoint calibration_wait (fuel : nat) : M unit :=
  match fuel with
  | O => hang
  | S fuel' =>
      status ← query_str "CAL:STAT?";
      if bool_decide (status = "RUN") then
        print "Instrument calibration in progress - please wait...";;
        sleep 10000;;
        calibration_wait fuel'
      else mret tt
  end.

Definition calibration (fuel : nat) : M unit :=
  try_except
    (write_str "CAL";;
     calibration_wait fuel;;
     sat ← query "CAL:SAT?";
     if bool_decide (sat = "OK") then print "Self-alignment succesful!"
     else
       status ← query_str "CAL:STAT?";
       if bool_decide (status = "ERR") then
         print "An error occured while calibrating."
       else
         status ← query_str "CAL:STAT?";
         if bool_decide (status = "ABOR") then print "Calibration aborted."
         else mret tt)
    (λ ex,
     print ("Error with instrument " +:+ blanks 18 +:+ "self-alignment" +:+ nl +:+
            exn_msg ex)).

(** ** acquire *)

(** A number inside an f-string. *)
Definition format_num (n : num) : string :=
  match n with Int z => pretty z | Float q => repr_float q end.

(** The record length that [acquire] sends when it is set by hand. *)
Definition checked_length (length : num) : M num :=
  if num_gt length (Float 40000000) then
    print ("Maximum record length exceeded." +:+ blanks 26 +:+
           "Setting to maximum: 40MSa");;
    mret (Float 40000000)
  else if num_lt length (Float 5000) then
    print ("Minimum record length exceeded." +:+ blanks 26 +:+
           "Setting to minimum: 5kSa");;
    mret (Float 5000)
  else mret length.

(** [while self.query("ACQ:STAT?") != 'COMP']. *)
Fixpoint acquire_wait (fuel : nat) : M unit :=
  match fuel with
  | O => hang
  | S fuel' =>
      status ← query "ACQ:STAT?";
      if bool_decide (status = "COMP") then mret tt
      else
        sleep 1000;;
        s ← get_self;
        when (verbose s) (print "Acquiring...");;
        acquire_wait fuel'
  end.

(** The record length: chosen by the instrument, or set by hand. *)
Definition acquire_record_length (auto : bool) (length : num) : M unit :=
  if auto then write_str "ACQ:POIN:AUT ON"
  else
    write_str "ACQ:POIN:AUT OFF";;
    write_str "ACQ:MEM DMEM";;
    length ← checked_length length;
    write_str ("ACQ:POIN " +:+ format_num length).

(** The acquisition itself: an average, or single shots; the value is the
    flag [hist] of the source. *)
Definition acquire_shots (fuel : nat) (mode : string) (N : Z) : M bool :=
  if contains "AVER" mode then
    average fuel N;;
    mret false
  else
    '(_, max_segments) ← check_hist_values;
    limit ← int_of_str max_segments;
    N ← (if bool_decide (N > limit) then
           N ← int_of_str max_segments;
           s ← get_self;
           when (verbose s)
             (print ("Number of segments exceeds max segments. " +:+
                     blanks 30 +:+ "Setting samples (N) to " +:+ pretty N));;
           mret N
         else mret N);
    write_str "ACQ:TYPE REFR";;
    hist ← (if contains "NSING" mode then
              write_str ("ACQ:NSIN:COUN " +:+ pretty N);;
              mret true
            else
              write_str "ACQ:NSIN:COUN 1";;
              mret false);
    write_str "RUNS";;
    acquire_wait fuel;;
    mret hist.

(** The deferred save. *)
Definition acquire_save (fuel : nat) (hist : bool) : M unit :=
  s ← get_self;
  when (save s) (if hist then save_history fuel else save_channels fuel).

(** [acquire]: the [return True] that follows the [try] statement ends its
    body here, which changes nothing since it cannot raise. *)
Definition acquire (fuel : nat) (mode : string) (N : Z) (auto : bool)
    (length : num) : M bool :=
  try_except
    (channel_select fuel;;
     write_str "ACQ:SEGM:STAT ON";;
     acquire_record_length auto length;;
     hist ← acquire_shots fuel mode N;
     acquire_save fuel hist;;
     mret true)
    (λ ex,
     print ("Error while acquiring data" +:+ exn_msg ex);;
     mret false).

(** ** __init__ *)

(** The [if]/[elif] chain on [mode]: the resource string, or [None] when the
    [else] branch leaves [resource_str] unbound. *)
Definition resource_of (address mode : string) : option string :=
  if bool_decide (mode = "hiLAN") then Some ("TCPIP::" +:+ address +:+ "::hislip0")
  else if bool_decide (mode = "LAN") then Some ("TCPIP::" +:+ address +:+ "::INSTR")
  else if bool_decide (mode = "USB") then Some ("USB::" +:+ address +:+ "::INSTR")
  else None.

(** What Python says when [resource_str] is read without a value. *)
Definition unbound_resource_str : string :=
  "cannot access local variable 'resource_str' where it is not associated with a value".

Definition __init__ (address mode : string) (verbose : bool) : M unit :=
  call (AssertMinimumVersion "1.50.0") (drv_assert_minimum_version drv "1.50.0");;
  let resource_str := resource_of address mode in
  when (bool_decide (resource_str = None))
    (print ("Invalid mode" +:+ nl +:+
            " Please enter either: 'hiLAN', 'LAN' or 'USB'" +:+ nl +:+ " "));;
  try_except
    (match resource_str with
     | Some r => call (Open r) (drv_open drv r)
     | None =>
         raise UnboundLocalError unbound_resource_str
     end;;
     modify_self (set_visa_timeout 6000);;
     modify_self (set_opc_timeout 3000);;
     modify_self (set_opc_timeout 15);;
     modify_self (set_acquisition_timeout 10);;
     modify_self (set_instrument_status_checking true);;
     when verbose
       (name ← query_str "SYST:NAME?";
        print ("Connection to instrument " +:+ name +:+ " successful")))
    (λ ex,
     print ("Error initializing the instrument session:" +:+ nl +:+ exn_msg ex));;
  call ClearStatus (drv_clear_status drv);;
  call Reset (drv_reset drv);;
  write_str "CHAN:AON";;
  modify_self (λ s,
    {| visa_timeout := visa_timeout s; opc_timeout := opc_timeout s;
       acquisition_timeout := acquisition_timeout s;
       instrument_status_checking := instrument_status_checking s;
       channels := ChanList [1; 2; 3; 4];
       instr_path := "/INT/SCREEN/";
       path := dir_dropbox;
       folder := None;
       fname := "file";
       file_format := "csv";
       screenshot_format := "png";
       verbose := verbose;
       save := false |}).

(** [RS_Scopes(address, mode, verbose)]: a new object, then [__init__]. *)
Definition RS_Scopes (address mode : string) (verbose : bool) : M unit :=
  put_self fresh_object;;
  __init__ address mode verbose.

(** ** Polling *)

(** [within n poll stop s]: when the instrument is polled from the state [s],
    with nothing else sent to it in between, an answer that ends the polling
    (one that [stop] accepts, or an error) comes with one of the first [n]
    polls. *)
Fixpoint within {A} (n : nat) (poll : D → reply D A) (stop : A → bool) (s : D)
    : Prop :=
  match n with
  | O => False
  | S n' =>
      match result (poll s) with
      | Value a => if stop a then True else within n' poll stop (next (poll s))
      | Error _ => True
      end
  end.

(** Each completion poll is answered within [B] polls, and the model follows
    [fuel] polling rounds: enough for that and for an average to reach the
    acquisition timeout [t] of the session. *)
Definition polls_answered (t : option Z) (B fuel : nat) : Prop :=
  (∀ s, within B (drv_query_opc drv) (λ b, b) s) ∧
  (∀ s, within B (drv_query drv "ACQ:STAT?") (λ r, bool_decide (r = "COMP")) s) ∧
  (B ≤ fuel)%nat ∧
  match t with Some T => (Z.to_nat T + 2 ≤ fuel)%nat | None => True end.

End Scope.

(** The commands that set the record length and the number of single shots. *)
Definition is_record_length (cmd : string) : bool := String.prefix "ACQ:POIN " cmd.
Definition is_shot_count (cmd : string) : bool := String.prefix "ACQ:NSIN:COUN " cmd.



(** [clamp L lo hi], on the numbers of Python. *)
Definition clamp (L lo hi : num) : num :=
  if num_lt L lo then lo else if num_gt L hi then hi else L.

(** The commands sent with [write_str], the files saved and the sample queries
    made, in order. *)
Definition writes (es : list event) : list string :=
  omap (λ e, match e with Call (WriteStr cmd) => Some cmd | _ => None end) es.

Definition saves (es : list event) : list string :=
  omap (λ e, match e with SaveFile file => Some file | _ => None end) es.

(** The commands written that [sel] selects. *)
Definition picked (sel : string → bool) (es : list event) : list string :=
  filter (λ cmd, sel cmd = true) (writes es).

(** The events that reach the instrument as a command or a sample query, or
    the disk as a saved file; prints, sleeps and status queries are left out. *)
Definition observed (e : event) : bool :=
  match e with
  | Call (WriteStr _) | Call (QueryFloatList _) | SaveFile _ => true
  | _ => false
  end.

Definition outputs (es : list event) : list event := filter observed es.

(** The commands of [save_channels] and [save_history]. *)
Definition head_query (channel : Z) : event :=
  Call (QueryFloatList ("CHAN" +:+ pretty channel +:+ ":DATA:HEAD?")).
Definition data_query (channel : Z) : event :=
  Call (QueryFloatList ("CHAN" +:+ pretty channel +:+ ":DATA?")).
Definition select_segment (channel i : Z) : event :=
  Call (WriteStr ("CHAN" +:+ pretty channel +:+ ":HIST:CURR " +:+ pretty i)).


(** The column of a channel in the CSV header. *)
Definition column_header (channel : Z) : string := "C_" +:+ pretty channel +:+ " (V)".

(** The header row for a list of channels, and the rows under it. *)
Definition header_row (cs : list Z) : list cell :=
  CStr <$> ("time (s)" :: (column_header <$> cs)).

Definition data_rows (time_data : list Q) (cols : list (list Q)) : csv :=
  fmap (M := list) CNum <$> zip_star time_data cols.

(** What [save_history] sends and saves for the indices [l] of its loop, when
    the file of each segment needed the number of copy markers given in [ks]:
    segment [i + 1] is selected, the channels are read, and the file is saved
    under the file name extended by [i + 1]. *)
Fixpoint history_outputs (s : Session) (c0 : Z) (cs : list Z) (l : list Z)
    (ks : list nat) : list event :=
  match l, ks with
  | i :: l', k :: ks' =>
      let s' := set_fname (fname s +:+ pretty (i + 1)) s in
      select_segment c0 (i + 1) :: head_query c0 :: (data_query <$> (c0 :: cs)) ++
      SaveFile (candidate (base_name s') (file_format s') k) ::
      history_outputs s' c0 cs l' ks'
  | _, _ => []
  end.

(** * screenshot *)

Definition set_screenshot_format (v : string) (s : Session) : Session :=
  {| visa_timeout := visa_timeout s; opc_timeout := opc_timeout s;
     acquisition_timeout := acquisition_timeout s;
     instrument_status_checking := instrument_status_checking s;
     channels := channels s; instr_path := instr_path s; path := path s;
     folder := folder s; fname := fname s; file_format := file_format s;
     screenshot_format := v; verbose := verbose s; save := save s |}.

Section Screenshot.

Context {D : Type} (drv : Driver D).

(** RsInstrument's [read_file_from_instrument_to_pc(source, target)].  The
    library is not part of the repository: what the transfer does to the
    instrument and to the disk is a parameter. *)
Variable read_file_from_instrument_to_pc : string → string → M (D := D) unit.

(** The warning of a format that is neither [png] nor [bmp]. *)
Definition format_warning : string :=
  "screenshot_format must be either " +:+ blanks 19 +:+ "'png' or 'bmp'" +:+ nl +:+
  " Defaulting to 'png'".

(** [screenshot]: the loop on [query_opc] is the one of [save_channels]. *)
Definition screenshot (fuel : nat) : M bool :=
  s ← get_self;
  when (bool_decide (screenshot_format s ∉ ["png"; "bmp"]))
    (print format_warning;;
     modify_self (set_screenshot_format "png"));;
  try_except
    (s ← get_self;
     write_str drv ("MMEM:CDIR " +:+ dquote +:+ instr_path s +:+ dquote);;
     s ← get_self;
     write_str drv ("HCOP:FORM " +:+ screenshot_format s);;
     s ← get_self;
     write_str drv ("MMEM:NAME " +:+ dquote +:+ fname s +:+ dquote);;
     write_str drv "HCOP:IMM";;
     save_channels_wait drv fuel;;
     s ← get_self;
     save_file ← check_file_exists (screenshot_format s);
     s ← get_self;
     read_file_from_instrument_to_pc
       (instr_path s +:+ fname s +:+ "." +:+ screenshot_format s) save_file;;
     s ← get_self;
     when (verbose s)
       (print ("Screenshot successful! File " +:+ fname s +:+ "." +:+ file_format s +:+
               " " +:+ blanks 22 +:+ "saved."));;
     s ← get_self;
     write_str drv ("MMEM:DEL " +:+ dquote +:+ fname s +:+ "." +:+
                    screenshot_format s +:+ dquote);;
     mret true)
    (λ ex,
     print ("Error occured while taking the screenshot" +:+ exn_msg ex);;
     mret false).

End Screenshot.

(** * Words for the statements *)

(** The channels of a channel set, a bare number being one channel. *)
Definition channel_list (c : channel_set) : list Z :=
  match c with ChanList cs => cs | Single c => [c] end.

(** The command that switches a channel on. *)
Definition channel_on (channel : Z) : string :=
  "CHAN" +:+ pretty channel +:+ ":STAT ON".


(** The command that deletes a file on the instrument. *)
Definition is_delete (cmd : string) : bool := String.prefix "MMEM:DEL" cmd.

(** The calls into RsInstrument, and the resources opened, in order. *)
Definition calls (es : list event) : list request :=
  omap (λ e, match e with Call r => Some r | _ => None end) es.

Definition opens (es : list event) : list string :=
  omap (λ e, match e with Call (Open resource) => Some resource | _ => None end) es.

(** * Instruments and sessions to run the model on *)

Module Bench.

Definition ok {D A} (a : A) (s : D) : reply D A := Reply 0%N (Value a) s.
Definition failing {D A} (msg : string) (s : D) : reply D A :=
  Reply 0%N (Error msg) s.

(** Formatting and [linspace] stand-ins: decimal integers with a trailing
    [.0], and exact rational steps. *)
Definition shown (q : Q) : string := pretty (Qfloor q) +:+ ".0".

Definition linear (start stop : Q) (n : Z) : list Q :=
  (λ i : Z, start + inject_Z i * ((stop - start) / inject_Z (n - 1)))%Q
    <$> seqZ 0 n.

(** A session as [__init__] leaves it, with output below [/data/]. *)
Definition session : Session :=
  {| visa_timeout := Some 6000; opc_timeout := Some 15;
     acquisition_timeout := Some 10; instrument_status_checking := Some true;
     channels := ChanList [1; 2; 3; 4]; instr_path := "/INT/SCREEN/";
     path := "/data/"; folder := None; fname := "file"; file_format := "csv";
     screenshot_format := "png"; verbose := true; save := false |}.

Definition start {D} (s : Session) (i : D) (fs : gmap string csv) : world :=
  World s i 0 fs [].

(** Two earlier saves under the same name are on disk. *)
Definition saved_twice : gmap string csv :=
  <["/data/file.csv" := []]> (<["/data/file-(copy).csv" := []]> ∅).

(** An instrument that answers at once and never fails; its state counts the
    calls. *)
Definition steady : Driver nat :=
  {| drv_assert_minimum_version := λ _ s, ok tt (S s);
     drv_open := λ _ s, ok tt (S s);
     drv_clear_status := λ s, ok tt (S s);
     drv_reset := λ s, ok tt (S s);
     drv_write_str := λ _ s, ok tt (S s);
     drv_query := λ cmd s,
       if bool_decide (cmd = "ACQ:COUN?") then ok "25" (S s)
       else if bool_decide (cmd = "ACQ:AVER:COMP?") then ok "1" (S s)
       else ok "COMP" (S s);
     drv_query_str := λ cmd s,
       if bool_decide (cmd = "ACQ:AVA?") then ok "3" (S s) else ok "RTB2004" (S s);
     drv_query_opc := λ s, ok true (S s);
     drv_query_bin_or_ascii_float_list := λ cmd s,
       if contains "HEAD" cmd then ok [0; 1; 3]%Q (S s)
       else ok [inject_Z (Z.of_nat s); 2; 5]%Q (S s) |}.

(** An instrument on which channel 2 cannot be read: its sample query raises,
    the other channels give three samples each. *)
Definition partial : Driver nat :=
  {| drv_assert_minimum_version := λ _ s, ok tt (S s);
     drv_open := λ _ s, ok tt (S s);
     drv_clear_status := λ s, ok tt (S s);
     drv_reset := λ s, ok tt (S s);
     drv_write_str := λ _ s, ok tt (S s);
     drv_query := λ _ s, ok "COMP" (S s);
     drv_query_str := λ _ s, ok "1" (S s);
     drv_query_opc := λ s, ok true (S s);
     drv_query_bin_or_ascii_float_list := λ cmd s,
       if bool_decide (cmd = "CHAN1:DATA:HEAD?") then ok [0; 1; 3]%Q (S s)
       else if bool_decide (cmd = "CHAN2:DATA?") then failing "Timeout" (S s)
       else ok [inject_Z (Z.of_nat s); 2; 5]%Q (S s) |}.

(** An instrument that accepts every command and never finishes: the average
    is never complete and the acquisition never reads [COMP]. *)
Definition stalled : Driver nat :=
  {| drv_assert_minimum_version := λ _ s, ok tt (S s);
     drv_open := λ _ s, ok tt (S s);
     drv_clear_status := λ s, ok tt (S s);
     drv_reset := λ s, ok tt (S s);
     drv_write_str := λ _ s, ok tt (S s);
     drv_query := λ cmd s,
       if bool_decide (cmd = "ACQ:COUN?") then ok "25" (S s)
       else if bool_decide (cmd = "ACQ:AVER:COMP?") then ok "0" (S s)
       else ok "RUN" (S s);
     drv_query_str := λ _ s, ok "RUN" (S s);
     drv_query_opc := λ s, ok true (S s);
     drv_query_bin_or_ascii_float_list := λ _ s, ok [] (S s) |}.

(** An instrument that cannot be reached: the session does not open, and
    every later call fails as well. *)
Definition unreachable : Driver unit :=
  {| drv_assert_minimum_version := λ _, ok tt;
     drv_open := λ _, failing "Resource not found";
     drv_clear_status := failing "No session";
     drv_reset := failing "No session";
     drv_write_str := λ _, failing "No session";
     drv_query := λ _, failing "No session";
     drv_query_str := λ _, failing "No session";
     drv_query_opc := failing "No session";
     drv_query_bin_or_ascii_float_list := λ _, failing "No session" |}.


(** An instrument in self-alignment: [CAL:STAT?] reads [RUN] twice and [OK]
    from then on; it knows no other query.  Its state counts the status
    queries. *)
Definition aligning : Driver nat :=
  let status (cmd : string) (s : nat) : reply nat string :=
    if bool_decide (cmd = "CAL:STAT?") then
      Reply 0%N (Value (if bool_decide (s < 2)%nat then "RUN" else "OK")) (S s)
    else failing "-113,Undefined header" s in
  {| drv_assert_minimum_version := λ _, ok tt;
     drv_open := λ _, ok tt;
     drv_clear_status := ok tt;
     drv_reset := ok tt;
     drv_write_str := λ _, ok tt;
     drv_query := status;
     drv_query_str := status;
     drv_query_opc := ok true;
     drv_query_bin_or_ascii_float_list := λ _, ok [] |}.

End Bench.

(** * More instruments and sessions *)

Module Lab.

(** An instrument that is never done: its completion query reads [False].
    It accepts every command and answers the queries of the channels. *)
Definition busy : Driver nat :=
  {| drv_assert_minimum_version := λ _ s, Bench.ok tt (S s);
     drv_open := λ _ s, Bench.ok tt (S s);
     drv_clear_status := λ s, Bench.ok tt (S s);
     drv_reset := λ s, Bench.ok tt (S s);
     drv_write_str := λ _ s, Bench.ok tt (S s);
     drv_query := λ _ s, Bench.ok "COMP" (S s);
     drv_query_str := λ _ s, Bench.ok "0" (S s);
     drv_query_opc := λ s, Bench.ok false (S s);
     drv_query_bin_or_ascii_float_list := λ cmd s,
       if contains "HEAD" cmd then Bench.ok [0; 1; 3]%Q (S s)
       else Bench.ok [1; 2; 5]%Q (S s) |}.

(** An instrument that cannot average: it rejects the commands that set the
    type of the acquisition. *)
Definition unaveraged : Driver nat :=
  {| drv_assert_minimum_version := λ _ s, Bench.ok tt (S s);
     drv_open := λ _ s, Bench.ok tt (S s);
     drv_clear_status := λ s, Bench.ok tt (S s);
     drv_reset := λ s, Bench.ok tt (S s);
     drv_write_str := λ cmd s,
       if String.prefix "ACQ:TYPE" cmd then Bench.failing "-221,Settings conflict" (S s)
       else Bench.ok tt (S s);
     drv_query := λ _ s, Bench.ok "COMP" (S s);
     drv_query_str := λ _ s, Bench.ok "0" (S s);
     drv_query_opc := λ s, Bench.ok true (S s);
     drv_query_bin_or_ascii_float_list := λ _ s, Bench.ok [] (S s) |}.

(** The session of the bench with the deferred save switched on, and with a
    screenshot format that is not one of the two. *)
Definition saving : Session :=
  {| visa_timeout := Some 6000; opc_timeout := Some 15;
     acquisition_timeout := Some 10; instrument_status_checking := Some true;
     channels := ChanList [1; 2; 3; 4]; instr_path := "/INT/SCREEN/";
     path := "/data/"; folder := None; fname := "file"; file_format := "csv";
     screenshot_format := "png"; verbose := true; save := true |}.



Definition broken {D} (source target : string) : M (D := D) unit :=
  raise RsInstrException "Transfer failed".

End Lab.

(** * Properties *)

(** Equal traces, up to the nesting of appends. *)
Ltac same_trace :=
  repeat match goal with H : trace _ = _ |- _ => rewrite H; clear H end;
  simpl; rewrite <- ?app_assoc; simpl; reflexivity.

(** Membership in an explicit list. *)
Ltac in_list := rewrite ?elem_of_cons, ?elem_of_app; auto 10.

(** Unfolding the primitive steps of a computation. *)
Ltac run :=
  unfold attribute, modify_self, index, when, print, write_str, query, query_str,
    query_opc, query_bin_or_ascii_float_list in *;
  unfold call, emit, time, sleep, get_self, put_self, isfile, write_csv, raise,
    hang, try_except in *;
  unfold mbind, M_bind, mret, M_ret in *;
  simpl.

Section Properties.

Context {D : Type} (drv : Driver D).
Variable repr_float : Q → string.
Variable linspace : Q → Q → Z → list Q.

Variable dir_dropbox : string.

Implicit Types (w : world (D := D)) (m : gmap string csv).

(** ** Strings and file names *)

Lemma string_length_app (s1 s2 : string) :
  String.length (s1 +:+ s2) = (String.length s1 + String.length s2)%nat.
Proof. induction s1 as [|a s1 IH]; simpl; [done | by rewrite IH]. Qed.

Lemma copy_iter_length (k : nat) (save_file : string) :
  String.length (Nat.iter k (λ s, s +:+ "-(copy)") save_file)
  = (String.length save_file + 7 * k)%nat.
Proof.
  induction k as [|k IH]; [simpl; lia |].
  rewrite Nat.iter_succ, string_length_app, IH.
  change (String.length "-(copy)") with 7%nat. lia.
Qed.

Lemma candidate_length save_file format k :
  String.length (candidate save_file format k)
  = (String.length save_file + 7 * k + 1 + String.length format)%nat.
Proof.
  unfold candidate. rewrite !string_length_app, copy_iter_length.
  change (String.length ".") with 1%nat. lia.
Qed.

Lemma candidate_inj save_file format j k :
  candidate save_file format j = candidate save_file format k → j = k.
Proof.
  intros E. apply (f_equal String.length) in E.
  rewrite !candidate_length in E. lia.
Qed.

Lemma candidate_shift save_file format k :
  candidate (save_file +:+ "-(copy)") format k = candidate save_file format (S k).
Proof. unfold candidate. by rewrite Nat.iter_succ_r. Qed.

(** Among the first [size m + 1] candidate names one is not a file. *)
Lemma candidate_free_exists m save_file format :
  ∃ k, (k ≤ size m)%nat ∧ m !! candidate save_file format k = None.
Proof.
  set (P := λ k, is_Some (m !! candidate save_file format k)).
  destruct (decide (Forall P (seq 0 (S (size m))))) as [Hall | Hnot].
  - exfalso.
    set (l := candidate save_file format <$> seq 0 (S (size m))).
    assert (Hnd : NoDup l).
    { apply NoDup_fmap_2_strong; [| apply NoDup_seq].
      intros j k _ _. apply candidate_inj. }
    assert (Hsub : l ⊆ elements (dom m)).
    { intros x Hx. apply list_elem_of_fmap in Hx as (k & -> & Hk).
      apply elem_of_elements, elem_of_dom.
      rewrite Forall_forall in Hall. by apply Hall. }
    assert (Hlen : (length l ≤ length (elements (dom m)))%nat).
    { apply submseteq_length, NoDup_submseteq; done. }
    unfold l in Hlen. rewrite length_fmap, length_seq in Hlen.
    change (length (elements (dom m))) with (size (dom m)) in Hlen.
    rewrite size_dom in Hlen. lia.
  - apply not_Forall_Exists in Hnot; [| apply _].
    apply Exists_exists in Hnot as (k & Hk & HP).
    apply elem_of_seq in Hk. exists k. split; [lia |].
    unfold P, compose in HP. by apply eq_None_not_Some.
Qed.

(** The least such candidate. *)
Lemma candidate_first_free m save_file format :
  ∃ k, (k ≤ size m)%nat ∧ m !! candidate save_file format k = None ∧
       ∀ j, (j < k)%nat → is_Some (m !! candidate save_file format j).
Proof.
  destruct (candidate_free_exists m save_file format) as (k0 & Hk0 & Hfree).
  revert Hk0 Hfree. generalize (size m) as n. intros n Hk0 Hfree.
  assert (∃ k, (k ≤ k0)%nat ∧ m !! candidate save_file format k = None ∧
               ∀ j, (j < k)%nat → is_Some (m !! candidate save_file format j))
    as (k & ? & ? & ?); [| exists k; split_and!; [lia | done..]].
  clear Hk0. induction k0 as [k0 IH] using lt_wf_ind.
  destruct (decide (Exists (λ j, m !! candidate save_file format j = None)
                           (seq 0 k0))) as [Hex | Hno].
  - apply Exists_exists in Hex as (j & Hj & Hjfree).
    apply elem_of_seq in Hj.
    destruct (IH j ltac:(lia) Hjfree) as (k & ? & ? & ?).
    exists k. split_and!; [lia | done..].
  - exists k0. split_and!; [lia | done |].
    intros j Hj. destruct (m !! candidate save_file format j) eqn:E; [by eexists |].
    exfalso. apply Hno, Exists_exists. exists j. split; [| done].
    apply elem_of_seq. lia.
Qed.

(** The loop stops at the first candidate name that is not a file. *)
Lemma check_file_exists_loop_first_free format k :
  ∀ fuel save_file w,
    (k < fuel)%nat →
    (∀ j, (j < k)%nat → is_Some (files w !! candidate save_file format j)) →
    files w !! candidate save_file format k = None →
    check_file_exists_loop fuel save_file format w
    = (Ret (candidate save_file format k),
       if verbose (self w)
       then logged [Print ("Saving file as " +:+ candidate save_file format k)] w
       else w).
Proof.
  induction k as [|k IH]; intros fuel save_file w Hfuel Htaken Hfree.
  - destruct fuel as [|fuel]; [lia |]. simpl.
    unfold mbind, M_bind, isfile. change (candidate save_file format 0)
      with (save_file +:+ "." +:+ format) in *.
    rewrite Hfree. rewrite bool_decide_eq_false_2 by (intros [? ?]; done).
    unfold get_self. simpl. by destruct (verbose (self w)).
  - destruct fuel as [|fuel]; [lia |]. simpl.
    unfold mbind, M_bind, isfile.
    pose proof (Htaken 0%nat ltac:(lia)) as H0.
    change (candidate save_file format 0) with (save_file +:+ "." +:+ format) in H0.
    rewrite bool_decide_eq_true_2 by done.
    rewrite (IH fuel (save_file +:+ "-(copy)") w).
    + by rewrite candidate_shift.
    + lia.
    + intros j Hj. rewrite candidate_shift. apply Htaken. lia.
    + by rewrite candidate_shift.
Qed.

(** [check_file_exists] always returns: it stops at the first candidate name
    that is not a file, after printing it when the session is verbose. *)
Lemma check_file_exists_returns format w :
  ∃ k, (∀ j, (j < k)%nat →
          is_Some (files w !! candidate (base_name (self w)) format j)) ∧
       files w !! candidate (base_name (self w)) format k = None ∧
       check_file_exists format w
       = (Ret (candidate (base_name (self w)) format k),
          if verbose (self w)
          then logged [Print ("Saving file as " +:+
                              candidate (base_name (self w)) format k)] w
          else w).
Proof.
  destruct (candidate_first_free (files w) (base_name (self w)) format)
    as (k & Hk & Hfree & Htaken).
  exists k. split_and!; [done.. |].
  unfold check_file_exists.
  apply check_file_exists_loop_first_free; [lia | done..].
Qed.

(** C1, as the code has it: the marker is appended once per collision.  When
    the names with 0, 1, ..., k-1 markers are files and the name with k markers
    is not, [check_file_exists] returns the name with k markers: [name-(copy).ext]
    for k = 1, [name-(copy)-(copy).ext] for k = 2.  The returned name is never
    that of an existing file, so no earlier copy is overwritten. *)
Theorem check_file_exists_marker_per_collision format w k :
  (∀ j, (j < k)%nat →
     is_Some (files w !! candidate (base_name (self w)) format j)) →
  files w !! candidate (base_name (self w)) format k = None →
  (check_file_exists format w).1 = Ret (candidate (base_name (self w)) format k).
Proof.
  intros Htaken Hfree.
  destruct (check_file_exists_returns format w) as (k' & Htaken' & Hfree' & ->).
  simpl. f_equal. f_equal.
  destruct (Nat.lt_trichotomy k k') as [Hlt | [-> | Hgt]]; [| done |].
  - destruct (Htaken' k Hlt) as [x Hx]. congruence.
  - destruct (Htaken k' Hgt) as [x Hx]. congruence.
Qed.

(** ** average *)

Section Average.

Hypothesis writes_accepted : ∀ cmd s, result (drv_write_str drv cmd s) = Value tt.
Hypothesis queries_answered : ∀ cmd s, ∃ r, result (drv_query drv cmd s) = Value r.

(** The polling loop of [average] leaves by itself: each round that does not
    see the flag sleeps for a second, and [n] seconds exhaust what is left of
    the timeout. *)
Lemma average_wait_returns start T :
  ∀ fuel n w,
    acquisition_timeout (self w) = Some T →
    1000 * T - (clock w - start) < 1000 * Z.of_nat n →
    (n < fuel)%nat →
    ∃ w' es,
      average_wait drv fuel start w = (Ret tt, w') ∧
      trace w' = trace w ++ es ∧ self w' = self w ∧ clock w ≤ clock w' ∧
      writes es = [] ∧
      ((∀ s, result (drv_query drv "ACQ:AVER:COMP?" s) ≠ Value "1") →
       Print "Average acquisition timeout." ∈ es ∧ 1000 * T < clock w' - start).
Proof.
  induction fuel as [|fuel IH]; intros n w HT Hleft Hfuel; [lia |].
  destruct (queries_answered "ACQ:AVER:COMP?" (instr w)) as [r Hr].
  simpl. run. rewrite Hr.
  case_bool_decide as Hone.
  - eexists _, [_]. split; [reflexivity |]. simpl. split_and!; try done; [lia |].
    intros Hnever. exfalso. apply (Hnever (instr w)). by rewrite Hr, Hone.
  - simpl. rewrite HT. simpl.
    case_bool_decide as Hover.
    + eexists _, [_; _]. split; [reflexivity |]. simpl.
      split; [same_trace |]. split_and!; try done; [lia |].
      intros _. split; [in_list | lia].
    + assert (Hn : (0 < n)%nat) by (destruct n; [simpl in *; lia | lia]).
      simpl. destruct (verbose (self w)) eqn:Hv; simpl;
        match goal with
        | |- context [average_wait drv fuel start ?w2] =>
            destruct (IH (n - 1)%nat w2)
              as (w' & es & Hrun & Htr & Hself & Hclk & Hwr & Hto);
            [done | simpl; lia | lia |]
        end;
        rewrite Hrun; simpl in *.
      * eexists w', (_ :: _ :: _ :: es).
        split; [done |]. split; [same_trace |].
        split_and!; [done | lia | done |].
        intros Hnever. destruct (Hto Hnever) as [Hin Hlate].
        split; [in_list | done].
      * eexists w', (_ :: _ :: es).
        split; [done |]. split; [same_trace |].
        split_and!; [done | lia | done |].
        intros Hnever. destruct (Hto Hnever) as [Hin Hlate].
        split; [in_list | done].
Qed.

(** C5: on an instrument that raises no error, [average] returns [True] after
    sending its five set-up commands and then [STOP], once, whether the flag
    was seen or not.  When the "average complete" query never answers ["1"],
    the loop leaves by its timeout branch: the timeout is reported and more
    than [acquisition_timeout] seconds have passed. *)
Theorem average_stops_once fuel N w T :
  acquisition_timeout (self w) = Some T →
  (Z.to_nat T + 2 ≤ fuel)%nat →
  ∃ w' es,
    average drv fuel N w = (Ret true, w') ∧
    trace w' = trace w ++ es ∧
    writes es = ["ACQ:TYPE AVER"; "ACQ:AVER:RES"; "ACQ:NSIN:COUN 1";
                 "ACQ:AVER:COUN " +:+ pretty N; "RUN"; "STOP"] ∧
    ((∀ s, result (drv_query drv "ACQ:AVER:COMP?" s) ≠ Value "1") →
     Print "Average acquisition timeout." ∈ es ∧
     1000 * T < clock w' - clock w).
Proof.
  intros HT Hfuel.
  unfold average. run. rewrite !writes_accepted. simpl.
  match goal with
  | |- context [average_wait drv fuel _ ?w1] =>
      destruct (average_wait_returns (clock w) T fuel (Z.to_nat T + 1) w1)
        as (w' & es & Hrun & Htr & Hself & Hclk & Hwr & Hto);
      [done | simpl; lia | lia |]
  end.
  rewrite Hrun, writes_accepted.
  eexists _, (_ :: _ :: _ :: _ :: _ :: es ++ [_]). simpl.
  split; [done |]. split; [same_trace |]. split.
  - unfold writes in *. simpl. rewrite omap_app, Hwr. done.
  - intros Hnever. destruct (Hto Hnever) as [Hin Hlate].
    split; [in_list |]. simpl. lia.
Qed.

End Average.

(** ** Rows of a zip *)





(** ** Saving channels *)

(** [w'] is [w] after some events whose observed part is [obs]. *)
Definition evolves w w' (obs : list event) : Prop :=
  ∃ es, trace w' = trace w ++ es ∧ outputs es = obs.

Lemma evolves_refl w : evolves w w [].
Proof. exists []. split; [by rewrite app_nil_r | done]. Qed.

Lemma evolves_trans w w1 w2 o1 o2 :
  evolves w w1 o1 → evolves w1 w2 o2 → evolves w w2 (o1 ++ o2).
Proof.
  intros (es1 & H1 & <-) (es2 & H2 & <-). exists (es1 ++ es2).
  split; [by rewrite H2, H1, app_assoc | apply filter_app].
Qed.

Lemma evolves_logged w w' es obs :
  trace w' = trace w ++ es → outputs es = obs → evolves w w' obs.
Proof. intros. by exists es. Qed.

(** [write_file] puts the header row and the rows in a file that did not
    exist. *)
Lemma write_file_returns (rows : csv) (headers : list string) w :
  headers ≠ [] →
  ∃ w' k,
    write_file rows headers w = (Ret tt, w') ∧
    files w !! candidate (base_name (self w)) (file_format (self w)) k = None ∧
    files w' = <[candidate (base_name (self w)) (file_format (self w)) k :=
                   (CStr <$> headers) :: rows]> (files w) ∧
    self w' = self w ∧
    evolves w w' [SaveFile (candidate (base_name (self w)) (file_format (self w)) k)].
Proof.
  intros Hne. unfold write_file. run.
  destruct (check_file_exists_returns (file_format (self w)) w)
    as (k & _ & Hfree & ->).
  destruct headers as [|h headers]; [done |].
  destruct (verbose (self w)) eqn:Hv; simpl; rewrite ?Hv; eexists _, k;
    (split; [reflexivity |]); simpl; (split_and!; [done | done | done |]).
  - eapply (evolves_logged _ _ [_; _; _]); [same_trace | done].
  - eapply (evolves_logged _ _ [_]); [same_trace | done].
Qed.

Section Saving.

(** The instrument has completed each operation when it is asked. *)
Hypothesis opc_ready : ∀ s, result (drv_query_opc drv s) = Value true.

Lemma opc_check_ready fuel w :
  (0 < fuel)%nat →
  ∃ w', opc_check drv fuel w = (Ret tt, w') ∧ evolves w w' [] ∧
        self w' = self w ∧ files w' = files w.
Proof.
  intros Hfuel. destruct fuel as [|fuel]; [lia |].
  unfold opc_check. simpl. run. rewrite opc_ready.
  eexists. split; [reflexivity |]. simpl.
  split_and!; [| done..]. by eapply evolves_logged.
Qed.

Lemma save_channels_wait_ready fuel w :
  (0 < fuel)%nat →
  ∃ w', save_channels_wait drv fuel w = (Ret tt, w') ∧ evolves w w' [] ∧
        self w' = self w ∧ files w' = files w.
Proof.
  intros Hfuel. destruct fuel as [|fuel]; [lia |].
  simpl. run. rewrite opc_ready.
  eexists. split; [reflexivity |]. simpl.
  split_and!; [| done..]. by eapply evolves_logged.
Qed.

(** [query_data] returns in both cases: with the samples, or with [None]
    after two printed lines when the sample query raises. *)
Lemma query_data_returns fuel channel w :
  (0 < fuel)%nat →
  ∃ w', query_data drv fuel channel w
        = (Ret (match result (drv_query_bin_or_ascii_float_list drv
                                ("CHAN" +:+ pretty channel +:+ ":DATA?") (instr w)) with
                | Value samples => Some samples
                | Error _ => None
                end), w') ∧
        evolves w w' [data_query channel] ∧
        self w' = self w ∧ files w' = files w.
Proof.
  intros Hfuel. unfold query_data. run.
  destruct (result _) as [samples | msg] eqn:Hres.
  - match goal with
    | |- context [opc_check drv fuel ?w1] =>
        destruct (opc_check_ready fuel w1 Hfuel) as (w' & -> & Hev & Hself & Hfiles)
    end.
    eexists. split; [reflexivity |]. simpl in *.
    split_and!; [| done..].
    eapply (evolves_trans _ _ _ [_] []); [| done]. by eapply evolves_logged.
  - eexists. split; [reflexivity |]. simpl.
    split_and!; [| done..].
    eapply (evolves_logged _ _ [_; _; _]); [same_trace | done].
Qed.

(** The header of the first configured channel, [c0], has its three entries,
    with a count that is not negative. *)
Variable c0 : Z.
Hypothesis header_answered : ∀ s, ∃ start stop count more,
  result (drv_query_bin_or_ascii_float_list drv
            ("CHAN" +:+ pretty c0 +:+ ":DATA:HEAD?") s)
  = Value (start :: stop :: count :: more) ∧ 0 ≤ int_of_float count.

Lemma query_time_returns fuel w :
  (0 < fuel)%nat →
  ∃ w' time_data,
    query_time drv linspace fuel c0 w = (Ret (Some time_data), w') ∧
    evolves w w' [head_query c0] ∧ self w' = self w ∧ files w' = files w.
Proof.
  intros Hfuel. unfold query_time. run.
  destruct (header_answered (instr w))
    as (start & stop & count & more & -> & Hcount).
  match goal with
  | |- context [opc_check drv fuel ?w1] =>
      destruct (opc_check_ready fuel w1 Hfuel) as (w' & -> & Hev & Hself & Hfiles)
  end.
  simpl. rewrite bool_decide_eq_false_2 by lia.
  eexists _, _. split; [reflexivity |]. simpl in *.
  split_and!; [| done..].
  eapply (evolves_trans _ _ _ [_] []); [| done]. by eapply evolves_logged.
Qed.

(** A channel whose sample query raises whenever it is made. *)
Definition unavailable (channel : Z) : Prop :=
  ∀ s, ∃ msg,
    result (drv_query_bin_or_ascii_float_list drv
              ("CHAN" +:+ pretty channel +:+ ":DATA?") s) = Error msg.

(** The loop of [save_channels] asks every channel for its samples, adds a
    header for each, and a column for those that gave samples. *)
Lemma save_channels_loop_returns fuel cs :
  (0 < fuel)%nat →
  ∀ headers cols w,
    ∃ w' cols',
      save_channels_loop drv fuel cs headers cols w
      = (Ret (headers ++ (column_header <$> cs), cols ++ cols'), w') ∧
      evolves w w' (data_query <$> cs) ∧ self w' = self w ∧ files w' = files w ∧
      (length cols' ≤ length cs)%nat ∧
      ((∃ c, c ∈ cs ∧ unavailable c) → (length cols' < length cs)%nat).
Proof.
  intros Hfuel. induction cs as [|c cs IH]; intros headers cols w.
  - exists w, []. simpl. rewrite !app_nil_r.
    split_and!; [done | apply evolves_refl | done | done | done |].
    intros (c & Hc & _). by apply elem_of_nil in Hc.
  - simpl. unfold mbind, M_bind.
    destruct (query_data_returns fuel c w Hfuel) as (w1 & -> & Hev1 & Hself1 & Hfiles1).
    destruct (save_channels_wait_ready fuel w1 Hfuel)
      as (w2 & -> & Hev2 & Hself2 & Hfiles2).
    match goal with
    | |- context [save_channels_loop drv fuel cs ?h ?c2 w2] =>
        destruct (IH h c2 w2) as (w' & cols' & -> & Hev & Hself & Hfiles & Hle & Hlt)
    end.
    destruct (result _) as [[|x samples] | msg] eqn:Hres.
    + exists w', cols'. rewrite <- !app_assoc. simpl.
      split_and!; [done | | congruence | congruence | lia |].
      * eapply (evolves_trans _ _ _ [_]); [| done].
        eapply (evolves_trans _ _ _ [_] []); done.
      * intros (c' & Hc' & Hun). apply elem_of_cons in Hc' as [-> | Hc'].
        -- destruct (Hun (instr w)) as [msg Hmsg]. unfold column_header in *.
           congruence.
        -- assert (length cols' < length cs)%nat by eauto. lia.
    + exists w', ([x :: samples] ++ cols'). rewrite <- !app_assoc. simpl.
      split_and!; [done | | congruence | congruence | lia |].
      * eapply (evolves_trans _ _ _ [_]); [| done].
        eapply (evolves_trans _ _ _ [_] []); done.
      * intros (c' & Hc' & Hun). apply elem_of_cons in Hc' as [-> | Hc'].
        -- destruct (Hun (instr w)) as [msg Hmsg]. congruence.
        -- assert (length cols' < length cs)%nat by eauto. lia.
    + exists w', cols'. rewrite <- !app_assoc. simpl.
      split_and!; [done | | congruence | congruence | lia |].
      * eapply (evolves_trans _ _ _ [_]); [| done].
        eapply (evolves_trans _ _ _ [_] []); done.
      * intros _. lia.
Qed.

(** [save_channels] on a list of channels: the header of the first channel
    and the samples of every channel are asked for, in order, and one file
    that did not exist is written. *)
Lemma save_channels_returns fuel w cs :
  channels (self w) = ChanList (c0 :: cs) →
  (0 < fuel)%nat →
  ∃ w' k time_data cols,
    save_channels drv repr_float linspace fuel w = (Ret tt, w') ∧
    files w !! candidate (base_name (self w)) (file_format (self w)) k = None ∧
    files w' = <[candidate (base_name (self w)) (file_format (self w)) k :=
                   header_row (c0 :: cs) :: data_rows time_data cols]> (files w) ∧
    self w' = self w ∧
    evolves w w'
      (head_query c0 :: (data_query <$> (c0 :: cs)) ++
       [SaveFile (candidate (base_name (self w)) (file_format (self w)) k)]) ∧
    (length cols ≤ length (c0 :: cs))%nat ∧
    ((∃ c, c ∈ c0 :: cs ∧ unavailable c) → (length cols < length (c0 :: cs))%nat).
Proof.
  intros Hchan Hfuel. unfold save_channels, first_channel, iter_channels. run.
  rewrite Hchan. simpl.
  destruct (query_time_returns fuel w Hfuel)
    as (w1 & time_data & -> & Hev1 & Hself1 & Hfiles1).
  rewrite Hself1, Hchan.
  destruct (save_channels_loop_returns fuel (c0 :: cs) Hfuel ["time (s)"] [] w1)
    as (w2 & cols & -> & Hev2 & Hself2 & Hfiles2 & Hle & Hlt).
  simpl.
  match goal with
  | |- context [write_file ?rows ?hs w2] =>
      destruct (write_file_returns rows hs w2 ltac:(done))
        as (w3 & k & -> & Hfree & Hfiles3 & Hself3 & Hev3)
  end.
  rewrite Hself2, Hself1, Hfiles2, Hfiles1 in *.
  assert (Hev : evolves w w3
            (head_query c0 :: (data_query <$> (c0 :: cs)) ++
             [SaveFile (candidate (base_name (self w)) (file_format (self w)) k)])).
  { eapply (evolves_trans _ _ _ [_]); [done |].
    eapply evolves_trans; done. }
  destruct (verbose (self w3)) eqn:Hv; eexists _, k, time_data, cols;
    (split; [reflexivity |]); simpl;
    (split_and!; [done | done | congruence | | done | done]); [| done].
  eapply (evolves_trans _ _ _ _ []) in Hev; [rewrite app_nil_r in Hev; apply Hev |].
  by eapply evolves_logged.
Qed.



(** ** Saving the history *)

Section History.

Hypothesis writes_accepted : ∀ cmd s, result (drv_write_str drv cmd s) = Value tt.

(** The instrument reports [K] available segments. *)
Variable K : Z.
Hypothesis segments_available : ∀ s, ∃ r,
  result (drv_query_str drv "ACQ:AVA?" s) = Value r ∧ py_int r = Some K.

(** One round of the loop: the segment is selected, the file name gets the
    index appended, and the channels are saved in a new file. *)
Lemma save_history_segment_returns fuel cs i w :
  (0 < fuel)%nat →
  channels (self w) = ChanList (c0 :: cs) →
  ∃ w' k,
    save_history_segment drv repr_float linspace fuel i w = (Ret tt, w') ∧
    self w' = set_fname (fname (self w) +:+ pretty (i + 1)) (self w) ∧
    evolves w w'
      (select_segment c0 (i + 1) :: head_query c0 :: (data_query <$> (c0 :: cs)) ++
       [SaveFile (candidate (base_name (self w')) (file_format (self w')) k)]) ∧
    size (files w') = S (size (files w)).
Proof.
  intros Hfuel Hchan.
  unfold save_history_segment, first_channel. run. rewrite Hchan. simpl.
  rewrite writes_accepted.
  match goal with
  | |- context [opc_check drv fuel ?w1] =>
      destruct (opc_check_ready fuel w1 Hfuel) as (w2 & -> & Hev2 & Hself2 & Hfiles2)
  end.
  simpl in *.
  match goal with
  | |- context [save_channels drv repr_float linspace fuel ?w3] =>
      destruct (save_channels_returns fuel w3 cs) as
        (w4 & k & time_data & cols & -> & Hfree & Hfiles4 & Hself4 & Hev4 & _);
      [by rewrite Hself2 | done |]
  end.
  simpl in *. rewrite Hself2 in *.
  exists w4, k. rewrite Hself4.
  split_and!; [done | done | |].
  - assert (Hev12 : evolves w w2 [select_segment c0 (i + 1)]).
    { eapply (evolves_trans _ _ _ [_] []); [| exact Hev2].
      by eapply (evolves_logged _ _ [_]). }
    destruct Hev12 as (es1 & Htr1 & Hout1).
    destruct Hev4 as (es4 & Htr4 & Hout4).
    exists (es1 ++ es4). simpl in *. split.
    + rewrite Htr4. simpl. rewrite Htr1. by rewrite app_assoc.
    + unfold outputs in *. by rewrite filter_app, Hout1, Hout4.
  - rewrite Hfiles4, map_size_insert_None by done. by rewrite Hfiles2.
Qed.

Lemma save_history_loop_returns fuel cs :
  (0 < fuel)%nat →
  ∀ l w,
    channels (self w) = ChanList (c0 :: cs) →
    ∃ w' ks,
      for_each l (save_history_segment drv repr_float linspace fuel) w = (Ret tt, w') ∧
      length ks = length l ∧
      evolves w w' (history_outputs (self w) c0 cs l ks) ∧
      self w' = foldl (λ s i, set_fname (fname s +:+ pretty (i + 1)) s) (self w) l ∧
      size (files w') = (size (files w) + length l)%nat.
Proof.
  intros Hfuel. induction l as [|i l IH]; intros w Hchan.
  - exists w, []. simpl.
    split_and!; [done | done | apply evolves_refl | done | lia].
  - simpl. unfold mbind at 1, M_bind at 1.
    destruct (save_history_segment_returns fuel cs i w Hfuel Hchan)
      as (w1 & k & -> & Hself1 & Hev1 & Hsize1).
    destruct (IH w1) as (w' & ks & -> & Hlen & Hev & Hself & Hsize);
      [by rewrite Hself1 |].
    exists w', (k :: ks). rewrite Hself1 in *.
    split_and!; [done | simpl; lia | | done | lia].
    assert (Hall := evolves_trans _ _ _ _ _ Hev1 Hev).
    simpl in *. rewrite <- app_assoc in Hall. exact Hall.
Qed.

(** C4: on an instrument that reports [K] available segments, accepts the
    commands and answers the queries of [save_channels], [save_history]
    returns after saving [K] new files, one per segment 1, ..., [K] in this
    order; each file is saved after its segment was selected and before the
    next one is, under the file name of the moment extended by the index of
    the segment. *)
Theorem save_history_one_file_per_segment fuel w cs :
  (0 < fuel)%nat →
  channels (self w) = ChanList (c0 :: cs) →
  ∃ w' ks,
    save_history drv repr_float linspace fuel w = (Ret tt, w') ∧
    length ks = Z.to_nat K ∧
    evolves w w' (history_outputs (self w) c0 cs (seqZ 0 K) ks) ∧
    size (files w') = (size (files w) + Z.to_nat K)%nat.
Proof.
  intros Hfuel Hchan. unfold save_history, int_of_str. run.
  destruct (segments_available (instr w)) as (r & -> & ->).
  match goal with
  | |- context [for_each _ _ ?w1] =>
      destruct (save_history_loop_returns fuel cs Hfuel (seqZ 0 K) w1 Hchan)
        as (w' & ks & -> & Hlen & Hev & _ & Hsize)
  end.
  rewrite length_seqZ in *. simpl in *.
  exists w', ks. split_and!; [done | done | | done].
  eapply (evolves_trans _ _ _ []); [| exact Hev].
  by eapply (evolves_logged _ _ [_]).
Qed.

End History.

End Saving.

(** ** What every run sends, and when a run ends *)

Lemma picked_app sel es1 es2 :
  picked sel (es1 ++ es2) = picked sel es1 ++ picked sel es2.
Proof. unfold picked, writes. by rewrite omap_app, filter_app. Qed.

Section Safe.

(** The commands that are watched, the acquisition timeout of the session, and
    what is assumed for a run to end. *)
Variable sel : string → bool.
Variable t : option Z.
Variable T : Prop.

(** [safe R c]: a run of [c] keeps the acquisition timeout of the session,
    writes no watched command, returns only values that satisfy [R] and,
    under the assumption [T], does not stay in a loop. *)
Definition safe {A} (R : A → Prop) (c : M A) : Prop :=
  ∀ w, acquisition_timeout (self w) = t →
    acquisition_timeout (self (c w).2) = t ∧
    (∃ es, trace (c w).2 = trace w ++ es ∧ picked sel es = []) ∧
    (∀ a, (c w).1 = Ret a → R a) ∧
    (T → (c w).1 ≠ Hang).

Lemma safe_ret {A} (R : A → Prop) (a : A) : R a → safe R (mret a).
Proof.
  intros HR w Ht. simpl. split_and!; [done | | congruence | done].
  exists []. by rewrite app_nil_r.
Qed.

Lemma safe_bind {A C} (R1 : A → Prop) (R : C → Prop) (c : M A) (k : A → M C) :
  safe R1 c → (∀ a, R1 a → safe R (k a)) → safe R (c ≫= k).
Proof.
  intros Hc Hk w Ht. unfold mbind, M_bind.
  destruct (Hc w Ht) as (Ht1 & (es1 & Htr1 & Hp1) & Hval1 & Hend1).
  destruct (c w) as [[a|e|] w1]; simpl in *.
  - destruct (Hk a (Hval1 a eq_refl) w1 Ht1)
      as (Ht2 & (es2 & Htr2 & Hp2) & Hval2 & Hend2).
    split_and!; [done | | done | done].
    exists (es1 ++ es2). split; [by rewrite Htr2, Htr1, app_assoc |].
    by rewrite picked_app, Hp1, Hp2.
  - split_and!; [done | by exists es1 | done |].
    intros HT; first [done | by destruct (Hend1 HT)].
  - split_and!; [done | by exists es1 | done |].
    intros HT; first [done | by destruct (Hend1 HT)].
Qed.

Lemma safe_try {A} (R : A → Prop) (body : M A) (handler : exn → M A) :
  safe R body → (∀ e, safe R (handler e)) → safe R (try_except body handler).
Proof.
  intros Hc Hk w Ht. unfold try_except.
  destruct (Hc w Ht) as (Ht1 & (es1 & Htr1 & Hp1) & Hval1 & Hend1).
  destruct (body w) as [[a|e|] w1]; simpl in *.
  - split_and!; [done | by exists es1 | done |].
    intros HT; first [done | by destruct (Hend1 HT)].
  - destruct (Hk e w1 Ht1) as (Ht2 & (es2 & Htr2 & Hp2) & Hval2 & Hend2).
    split_and!; [done | | done | done].
    exists (es1 ++ es2). split; [by rewrite Htr2, Htr1, app_assoc |].
    by rewrite picked_app, Hp1, Hp2.
  - split_and!; [done | by exists es1 | done |].
    intros HT; first [done | by destruct (Hend1 HT)].
Qed.

Lemma safe_mono {A} (R R' : A → Prop) (c : M A) :
  safe R c → (∀ a, R a → R' a) → safe R' c.
Proof.
  intros Hc HR w Ht. destruct (Hc w Ht) as (Ht1 & Hes & Hval & Hend).
  split_and!; [done | done | | done]. intros a Ha. by apply HR, Hval.
Qed.

(** The session is read together with the fact that is kept about it. *)
Lemma safe_get_self {A} (R : A → Prop) (k : Session → M A) :
  (∀ s, acquisition_timeout s = t → safe R (k s)) → safe R (get_self ≫= k).
Proof.
  intros Hk w Ht. unfold mbind, M_bind, get_self. by apply Hk.
Qed.

Lemma safe_put_self (R : unit → Prop) s :
  acquisition_timeout s = t → R tt → safe R (put_self s).
Proof.
  intros Hs HR w Ht. simpl. split_and!; [done | | by intros [] | done].
  exists []. by rewrite app_nil_r.
Qed.

Lemma safe_modify_self (R : unit → Prop) f :
  (∀ s, acquisition_timeout (f s) = acquisition_timeout s) → R tt →
  safe R (modify_self f).
Proof.
  intros Hf HR. unfold modify_self. apply safe_get_self. intros s Hs.
  apply safe_put_self; [by rewrite Hf | done].
Qed.

Lemma safe_emit (R : unit → Prop) e :
  writes [e] = [] → R tt → safe R (emit e).
Proof.
  intros He HR w Ht. simpl. split_and!; [done | | by intros [] | done].
  exists [e]. split; [done |]. unfold picked. by rewrite He.
Qed.

Lemma safe_print (R : unit → Prop) line : R tt → safe R (print line).
Proof. intros. by apply safe_emit. Qed.

Lemma safe_sleep (R : unit → Prop) ms : R tt → safe R (sleep ms).
Proof.
  intros HR w Ht. simpl. split_and!; [done | | by intros [] | done].
  by exists [Sleep ms].
Qed.

Lemma safe_time (R : Z → Prop) : (∀ z, R z) → safe R time.
Proof.
  intros HR w Ht. simpl. split_and!; [done | | done | done].
  exists []. by rewrite app_nil_r.
Qed.

Lemma safe_isfile (R : bool → Prop) p : (∀ b, R b) → safe R (isfile p).
Proof.
  intros HR w Ht. simpl. split_and!; [done | | done | done].
  exists []. by rewrite app_nil_r.
Qed.

Lemma safe_write_csv (R : unit → Prop) p rows : R tt → safe R (write_csv p rows).
Proof.
  intros HR w Ht. simpl. split_and!; [done | | by intros [] | done].
  by exists [SaveFile p].
Qed.

Lemma safe_raise {A} (R : A → Prop) c msg : safe R (raise c msg).
Proof.
  intros w Ht. simpl. split_and!; [done | | done | done].
  exists []. by rewrite app_nil_r.
Qed.

Lemma safe_hang {A} (R : A → Prop) : ¬ T → safe R hang.
Proof.
  intros HT w Ht. simpl. split_and!; [done | | done | done].
  exists []. by rewrite app_nil_r.
Qed.

Lemma safe_when (R : unit → Prop) b c : R tt → safe R c → safe R (when b c).
Proof. intros HR Hc. destruct b; [done | by apply safe_ret]. Qed.

(** The value of a call satisfies what holds of every answer. *)
Lemma safe_call {A} (R : A → Prop) r (f : D → reply D A) :
  picked sel [Call r] = [] →
  (∀ s a, result (f s) = Value a → R a) →
  safe R (call r f).
Proof.
  intros Hr HR w Ht. unfold call.
  destruct (result (f (instr w))) eqn:Hres; simpl;
    (split_and!; [done | by exists [Call r] | | done]).
  - intros a' [= <-]. by eapply HR.
  - done.
Qed.

Lemma safe_write_str (R : unit → Prop) cmd :
  sel cmd = false → R tt → safe R (write_str drv cmd).
Proof.
  intros Hcmd HR. apply safe_call; [| by intros ? []].
  unfold picked. simpl. rewrite filter_cons_False; [done |]. by rewrite Hcmd.
Qed.

Lemma safe_attribute {A} (R : A → Prop) name (field : Session → option A) :
  (∀ a, R a) → safe R (attribute name field).
Proof.
  intros HR. unfold attribute. apply safe_get_self. intros s Hs.
  destruct (field s); [by apply safe_ret | apply safe_raise].
Qed.

Lemma safe_index {A} (R : A → Prop) (l : list A) i : (∀ a, R a) → safe R (index l i).
Proof.
  intros HR. unfold index. destruct (l !! i); [by apply safe_ret | apply safe_raise].
Qed.

Lemma safe_for_each {A} (l : list A) (body : A → M unit) :
  (∀ x, safe (λ _, True) (body x)) → safe (λ _, True) (for_each l body).
Proof.
  intros Hbody. induction l as [|x l IH]; simpl; [by apply safe_ret |].
  eapply safe_bind; [apply Hbody | intros _ _; apply IH].
Qed.

(** *** A run that sends one watched command *)

(** The watched command that is expected, and a property of the events that
    come with it, which more events around them do not undo. *)
Variable cmd : string.
Variable P : list event → Prop.
Hypothesis P_more : ∀ before es after, P es → P (before ++ es ++ after).

(** [sends_once c]: a run of [c] either ends without a value and without a
    watched command, or writes the expected command as its only watched
    command, with events for which [P] holds. *)
Definition sends_once {A} (c : M A) : Prop :=
  ∀ w, acquisition_timeout (self w) = t →
    acquisition_timeout (self (c w).2) = t ∧
    ∃ es, trace (c w).2 = trace w ++ es ∧
          ((picked sel es = [] ∧ ∀ a, (c w).1 ≠ Ret a) ∨
           (picked sel es = [cmd] ∧ P es)).

Lemma once_after {A C} (R1 : A → Prop) (c : M A) (k : A → M C) :
  safe R1 c → (∀ a, R1 a → sends_once (k a)) → sends_once (c ≫= k).
Proof.
  intros Hc Hk w Ht. unfold mbind, M_bind.
  destruct (Hc w Ht) as (Ht1 & (es1 & Htr1 & Hp1) & Hval1 & _).
  destruct (c w) as [[a|e|] w1]; simpl in *.
  - destruct (Hk a (Hval1 a eq_refl) w1 Ht1) as (Ht2 & es2 & Htr2 & Hcases).
    split; [done |]. exists (es1 ++ es2).
    split; [by rewrite Htr2, Htr1, app_assoc |].
    rewrite picked_app, Hp1. simpl.
    destruct Hcases as [[Hp2 Hno] | [Hp2 HP]]; [by left | right].
    split; [done |]. specialize (P_more es1 es2 [] HP). by rewrite app_nil_r in P_more.
  - split; [done |]. exists es1. split; [done |]. by left.
  - split; [done |]. exists es1. split; [done |]. by left.
Qed.

Lemma once_before {A C} (R : C → Prop) (c : M A) (k : A → M C) :
  sends_once c → (∀ a, safe R (k a)) → sends_once (c ≫= k).
Proof.
  intros Hc Hk w Ht. unfold mbind, M_bind.
  destruct (Hc w Ht) as (Ht1 & es1 & Htr1 & Hcases).
  destruct (c w) as [[a|e|] w1]; simpl in *.
  - destruct (Hk a w1 Ht1) as (Ht2 & (es2 & Htr2 & Hp2) & _).
    split; [done |]. exists (es1 ++ es2).
    split; [by rewrite Htr2, Htr1, app_assoc |].
    rewrite picked_app, Hp2, app_nil_r.
    destruct Hcases as [[_ Hno] | [Hp1 HP]]; [by destruct (Hno a) | right].
    split; [done |]. by apply (P_more [] es1 es2).
  - split; [done |]. exists es1. split; [done |].
    destruct Hcases as [[Hp1 _] | ?]; [by left | by right].
  - split; [done |]. exists es1. split; [done |].
    destruct Hcases as [[Hp1 _] | ?]; [by left | by right].
Qed.

Lemma once_write_str :
  sel cmd = true → P [Call (WriteStr cmd)] → sends_once (write_str drv cmd).
Proof.
  intros Hsel HP w Ht. unfold write_str, call.
  destruct (result _); simpl; (split; [done |]);
    exists [Call (WriteStr cmd)]; (split; [done |]); right;
    (split; [| done]); unfold picked; simpl;
    by rewrite filter_cons_True, filter_nil.
Qed.

End Safe.

(** A run that is safe with nothing assumed is safe under [T] once it is
    shown to end under [T]. *)
Lemma safe_ends {A} sel t (T : Prop) (R : A → Prop) (c : M A) :
  safe sel t False R c →
  (∀ w, acquisition_timeout (self w) = t → T → (c w).1 ≠ Hang) →
  safe sel t T R c.
Proof.
  intros Hc Hend w Ht. destruct (Hc w Ht) as (Ht1 & Hes & Hval & _).
  split_and!; [done | done | done | by apply Hend].
Qed.

Lemma prefix_app (s1 s2 : string) : String.prefix s1 (s1 +:+ s2) = true.
Proof.
  induction s1 as [|a s1 IH]; simpl; [by destruct s2 |].
  destruct (Ascii.ascii_dec a a); [done | congruence].
Qed.

Create HintDb safe.

(** One step through a computation, by the rule of its head. *)
Ltac safe_step :=
  lazymatch goal with
  | |- safe _ _ _ _ (get_self ≫= _) => apply safe_get_self; intros ? ?
  | |- safe _ _ _ _ (_ ≫= _) => apply (safe_bind _ _ _ (λ _, True))
  | |- safe _ _ _ _ (mret _) => apply safe_ret
  | |- safe _ _ _ _ (try_except _ _) => apply safe_try
  | |- safe _ _ _ _ (when _ _) => apply safe_when
  | |- safe _ _ _ _ (print _) => apply safe_print
  | |- safe _ _ _ _ (sleep _) => apply safe_sleep
  | |- safe _ _ _ _ time => apply safe_time
  | |- safe _ _ _ _ (raise _ _) => apply safe_raise
  | |- safe _ _ _ _ (attribute _ _) => apply safe_attribute
  | |- safe _ _ _ _ (index _ _) => apply safe_index
  | |- safe _ _ _ _ (isfile _) => apply safe_isfile
  | |- safe _ _ _ _ (write_csv _ _) => apply safe_write_csv
  | |- safe _ _ _ _ (modify_self _) => apply safe_modify_self
  | |- safe _ _ _ _ (put_self _) => apply safe_put_self
  | |- safe _ _ _ _ (write_str _ _) => apply safe_write_str
  | |- safe _ _ _ _ (query _ _) => apply safe_call; [reflexivity |]
  | |- safe _ _ _ _ (query_str _ _) => apply safe_call; [reflexivity |]
  | |- safe _ _ _ _ (query_opc _) => apply safe_call; [reflexivity |]
  | |- safe _ _ _ _ (query_bin_or_ascii_float_list _ _) =>
      apply safe_call; [reflexivity |]
  | |- safe _ _ _ _ (if ?b then _ else _) => destruct b
  | |- safe _ _ _ _ (match ?x with _ => _ end) => destruct x
  | |- safe _ _ _ _ (let '(_, _) := ?x in _) => destruct x
  | |- safe _ _ _ _ _ => fail
  | |- ∀ _, _ => intro
  | |- True => exact I
  | |- true = true => reflexivity
  | |- _ = false => first [reflexivity | solve [eauto using prefix_app with safe]]
  | |- acquisition_timeout _ = _ => first [assumption | reflexivity]
  end.

Ltac safe_auto :=
  repeat first [safe_step | eassumption | solve [auto with safe nocore]].

Section Runs.

Variable sel : string → bool.
Variable t : option Z.
Variable B fuel : nat.

(** No command to a channel is watched. *)
Hypothesis sel_chan : ∀ cmd, String.prefix "CHAN" cmd = true → sel cmd = false.

Local Abbreviation calm := (safe sel t False (λ _, True)).
Local Abbreviation sure := (safe sel t (polls_answered drv t B fuel) (λ _, True)).

Local Hint Resolve sel_chan : safe.

(** *** opc_check *)

Lemma opc_check_loop_calm f start : calm (opc_check_loop drv f start).
Proof.
  induction f as [|f IH]; simpl; [apply safe_hang; tauto |]. safe_auto.
Qed.

Lemma opc_check_loop_ends n :
  ∀ f start w,
    within n (drv_query_opc drv) (λ b, b) (instr w) → (n ≤ f)%nat →
    (opc_check_loop drv f start w).1 ≠ Hang.
Proof.
  induction n as [|n IH]; intros f start w Hw Hf; [done |].
  destruct f as [|f]; [lia |]. simpl in *. run.
  destruct (result (drv_query_opc drv (instr w))) as [[|] | msg]; simpl; [done | | done].
  destruct (opc_timeout (self w)); simpl; [| done].
  case_bool_decide; simpl; [done |].
  apply IH; simpl; [done | lia].
Qed.

Lemma safe_opc_check : sure (opc_check drv fuel).
Proof.
  apply safe_ends.
  - unfold opc_check. safe_auto. apply opc_check_loop_calm.
  - intros w Ht (Hopc & _ & HB & _). unfold opc_check. run.
    exact (opc_check_loop_ends B fuel (clock w) w (Hopc _) HB).
Qed.

Local Hint Resolve safe_opc_check : safe.

(** *** channel_select *)

Lemma safe_channel_select : sure (channel_select drv fuel).
Proof.
  unfold channel_select.
  safe_auto; apply safe_for_each; intros channel; safe_auto.
Qed.

(** *** Retrieving and saving the channels *)

Lemma safe_query_data channel : sure (query_data drv fuel channel).
Proof. unfold query_data. safe_auto. Qed.

Lemma safe_query_time channel : sure (query_time drv linspace fuel channel).
Proof. unfold query_time. safe_auto. Qed.

Lemma save_channels_wait_calm f : calm (save_channels_wait drv f).
Proof.
  induction f as [|f IH]; simpl; [apply safe_hang; tauto |]. safe_auto.
Qed.

Lemma save_channels_wait_ends n :
  ∀ f w,
    within n (drv_query_opc drv) (λ b, b) (instr w) → (n ≤ f)%nat →
    (save_channels_wait drv f w).1 ≠ Hang.
Proof.
  induction n as [|n IH]; intros f w Hw Hf; [done |].
  destruct f as [|f]; [lia |]. simpl in *. run.
  destruct (result (drv_query_opc drv (instr w))) as [[|] | msg]; simpl; [done | | done].
  apply IH; simpl; [done | lia].
Qed.

Lemma safe_save_channels_wait : sure (save_channels_wait drv fuel).
Proof.
  apply safe_ends; [apply save_channels_wait_calm |].
  intros w Ht (Hopc & _ & HB & _).
  exact (save_channels_wait_ends B fuel w (Hopc _) HB).
Qed.

Local Hint Resolve safe_query_data safe_query_time safe_save_channels_wait : safe.

Lemma safe_save_channels_loop cs :
  ∀ headers cols, sure (save_channels_loop drv fuel cs headers cols).
Proof.
  induction cs as [|c cs IH]; intros headers cols; simpl; safe_auto.
Qed.

Lemma check_file_exists_loop_calm f :
  ∀ save_file format, calm (check_file_exists_loop f save_file format).
Proof.
  induction f as [|f IH]; intros save_file format; simpl;
    [apply safe_hang; tauto |].
  safe_auto.
Qed.

Lemma safe_check_file_exists format : sure (check_file_exists format).
Proof.
  intros w Ht. unfold check_file_exists.
  destruct (check_file_exists_loop_calm (S (size (files w))) (base_name (self w))
              format w Ht) as (H1 & H2 & _).
  split_and!; [done | done | done |]. intros _.
  destruct (check_file_exists_returns format w) as (k & _ & _ & Heq).
  unfold check_file_exists in Heq. by rewrite Heq.
Qed.

Local Hint Resolve safe_save_channels_loop safe_check_file_exists : safe.

Lemma safe_write_file rows headers : sure (write_file rows headers).
Proof. unfold write_file. safe_auto. Qed.

Local Hint Resolve safe_write_file : safe.

Lemma safe_save_channels : sure (save_channels drv repr_float linspace fuel).
Proof. unfold save_channels, first_channel, iter_channels. safe_auto. Qed.

Local Hint Resolve safe_save_channels safe_channel_select : safe.

Lemma safe_int_of_str r : sure (int_of_str r).
Proof. unfold int_of_str. safe_auto. Qed.

Local Hint Resolve safe_int_of_str : safe.

Lemma safe_save_history : sure (save_history drv repr_float linspace fuel).
Proof.
  unfold save_history. safe_auto. apply safe_for_each. intros i.
  unfold save_history_segment, first_channel. safe_auto.
Qed.

(** *** The polls of acquire *)

Lemma safe_check_hist_values : sure (check_hist_values drv).
Proof. unfold check_hist_values. safe_auto. Qed.

Lemma acquire_wait_calm f : calm (acquire_wait drv f).
Proof.
  induction f as [|f IH]; simpl; [apply safe_hang; tauto |]. safe_auto.
Qed.

Lemma acquire_wait_ends n :
  ∀ f w,
    within n (drv_query drv "ACQ:STAT?") (λ r, bool_decide (r = "COMP")) (instr w) →
    (n ≤ f)%nat →
    (acquire_wait drv f w).1 ≠ Hang.
Proof.
  induction n as [|n IH]; intros f w Hw Hf; [done |].
  destruct f as [|f]; [lia |]. simpl in *. run.
  destruct (result (drv_query drv "ACQ:STAT?" (instr w))) as [r | msg]; simpl; [| done].
  case_bool_decide; simpl; [done |].
  destruct (verbose (self w)); simpl; (apply IH; simpl; [done | lia]).
Qed.

Lemma safe_acquire_wait : sure (acquire_wait drv fuel).
Proof.
  apply safe_ends; [apply acquire_wait_calm |].
  intros w Ht (_ & Hstat & HB & _).
  exact (acquire_wait_ends B fuel w (Hstat _) HB).
Qed.

Local Hint Resolve safe_save_history safe_check_hist_values safe_acquire_wait : safe.

(** *** average *)

Lemma average_wait_calm f start : calm (average_wait drv f start).
Proof.
  induction f as [|f IH]; simpl; [apply safe_hang; tauto |]. safe_auto.
Qed.

(** The loop of [average] ends by its timeout, if by nothing else. *)
Lemma average_wait_ends start :
  ∀ f n w,
    acquisition_timeout (self w) = t →
    match t with
    | Some T => 1000 * T - (clock w - start) < 1000 * Z.of_nat n
    | None => True
    end →
    (n < f)%nat →
    (average_wait drv f start w).1 ≠ Hang.
Proof.
  induction f as [|f IH]; intros n w Ht Hleft Hf; [lia |].
  simpl. run.
  destruct (result (drv_query drv "ACQ:AVER:COMP?" (instr w))) as [r | msg]; simpl;
    [| done].
  case_bool_decide; simpl; [done |].
  rewrite Ht. destruct t as [T|]; simpl; [| done].
  case_bool_decide as Hover; simpl; [done |].
  assert (Hn : (0 < n)%nat) by (destruct n; [simpl in *; lia | lia]).
  destruct (verbose (self w)); simpl;
    (apply (IH (n - 1)%nat); simpl; [done | lia | lia]).
Qed.

Lemma within_positive {A} n (poll : D → reply D A) stop s :
  within n poll stop s → (0 < n)%nat.
Proof. destruct n; [done | lia]. Qed.

Section OtherThanRecordLength.

(** The watched commands all start with [ACQ:POIN]. *)
Hypothesis sel_other : ∀ cmd, String.prefix "ACQ:POIN" cmd = false → sel cmd = false.

Local Hint Resolve sel_other : safe.

Lemma safe_average N : sure (average drv fuel N).
Proof.
  apply safe_ends.
  - unfold average. safe_auto. apply average_wait_calm.
  - intros w Ht (Hopc & _ & HB & Havg).
    pose proof (within_positive _ _ _ _ (Hopc (instr w))) as HB0.
    unfold average. run.
    repeat (destruct (result (drv_write_str _ _ _)); simpl; [| done]).
    match goal with
    | |- context [average_wait drv fuel ?st ?w1] =>
        pose proof (average_wait_ends st fuel
                      (match t with Some T => Z.to_nat T + 1 | None => 0 end)%nat
                      w1 Ht) as Hend
    end.
    simpl in Hend.
    destruct (average_wait drv fuel _ _) as [[[] | e |] w'] eqn:Hrun; simpl in *.
    + destruct (result (drv_write_str _ _ _)); simpl; done.
    + done.
    + destruct Hend; [| | done]; destruct t; lia.
Qed.

Local Hint Resolve safe_average : safe.

Lemma safe_acquire_shots mode N : sure (acquire_shots drv fuel mode N).
Proof. unfold acquire_shots. safe_auto. Qed.

End OtherThanRecordLength.

Section OtherThanShotCount.

(** The watched commands all start with [ACQ:NSIN]. *)
Hypothesis sel_other : ∀ cmd, String.prefix "ACQ:NSIN" cmd = false → sel cmd = false.

Local Hint Resolve sel_other : safe.

Lemma safe_checked_length L : sure (checked_length L).
Proof. unfold checked_length. safe_auto. Qed.

Local Hint Resolve safe_checked_length : safe.

Lemma safe_acquire_record_length auto L :
  sure (acquire_record_length drv repr_float auto L).
Proof. unfold acquire_record_length. safe_auto. Qed.

End OtherThanShotCount.

Lemma safe_acquire_save hist :
  sure (acquire_save drv repr_float linspace fuel hist).
Proof. unfold acquire_save. safe_auto. Qed.

End Runs.

(** ** acquire: the record length *)

Lemma prefix_shorter s1 s2 : ∀ cmd,
  String.prefix (s1 +:+ s2) cmd = true → String.prefix s1 cmd = true.
Proof.
  induction s1 as [|a s1 IH]; intros cmd; [by destruct cmd |].
  change (String a s1 +:+ s2) with (String a (s1 +:+ s2)).
  destruct cmd as [|b cmd]; simpl; [done |].
  destruct (Ascii.ascii_dec a b); [apply IH | done].
Qed.

Lemma not_prefix_longer s1 s2 cmd :
  String.prefix s1 cmd = false → String.prefix (s1 +:+ s2) cmd = false.
Proof.
  intros H. destruct (String.prefix (s1 +:+ s2) cmd) eqn:E; [| done].
  apply prefix_shorter in E. congruence.
Qed.

Lemma prefix_cons x s1 a cmd :
  String.prefix (String x s1) (String a cmd)
  = if Ascii.ascii_dec x a then String.prefix s1 cmd else false.
Proof. reflexivity. Qed.

(** A command to a channel is not one of the [ACQ] commands. *)
Lemma chan_not_acq s cmd :
  String.prefix "CHAN" cmd = true → String.prefix (String "A" s) cmd = false.
Proof.
  destruct cmd as [|a cmd]; [done |]. rewrite !prefix_cons.
  destruct (Ascii.ascii_dec "C" a) as [<- |]; [| done]. intros _.
  destruct (Ascii.ascii_dec "A" "C") as [E |]; [discriminate E | done].
Qed.

Lemma chan_not_record_length cmd :
  String.prefix "CHAN" cmd = true → is_record_length cmd = false.
Proof. apply chan_not_acq. Qed.

Lemma chan_not_shot_count cmd :
  String.prefix "CHAN" cmd = true → is_shot_count cmd = false.
Proof. apply chan_not_acq. Qed.

Lemma other_not_record_length cmd :
  String.prefix "ACQ:POIN" cmd = false → is_record_length cmd = false.
Proof. apply (not_prefix_longer "ACQ:POIN" " "). Qed.

Lemma other_not_shot_count cmd :
  String.prefix "ACQ:NSIN" cmd = false → is_shot_count cmd = false.
Proof. apply (not_prefix_longer "ACQ:NSIN" ":COUN "). Qed.

(** A length above the maximum is not below the minimum. *)
Lemma gt_max_not_lt_min L :
  num_gt L (Float 40000000) = true → num_lt L (Float 5000) = false.
Proof.
  unfold num_lt, num_gt. simpl. intros Hgt.
  apply negb_true_iff in Hgt. apply negb_false_iff.
  apply Qle_bool_iff. destruct (Qlt_le_dec (num_val L) 5000) as [Hlt | Hle]; [| done].
  exfalso. assert (Hle : (num_val L <= 40000000)%Q).
  { apply Qlt_le_weak. eapply Qlt_trans; [exact Hlt | done]. }
  apply Qle_bool_iff in Hle. congruence.
Qed.

(** The tests of the source, in their order, compute the clamp. *)
Lemma checked_is_clamp L :
  (if num_gt L (Float 40000000) then Float 40000000
   else if num_lt L (Float 5000) then Float 5000 else L)
  = clamp L (Float 5000) (Float 40000000).
Proof.
  unfold clamp. destruct (num_gt L (Float 40000000)) eqn:Hgt; [| done].
  by rewrite gt_max_not_lt_min.
Qed.





(** ** acquire: the number of single shots *)



(** ** acquire: the value returned *)


(** ** acquire on an instrument that never completes *)

Lemma ret_bind {A C} (c : M (D := D) A) (k : A → M C) w a w1 :
  c w = (Ret a, w1) → (c ≫= k) w = k a w1.
Proof. intros H. unfold mbind, M_bind. by rewrite H. Qed.

Section NeverComplete.

Hypothesis writes_accepted : ∀ cmd s, result (drv_write_str drv cmd s) = Value tt.
Hypothesis opc_ready : ∀ s, result (drv_query_opc drv s) = Value true.
Hypothesis queries_answered : ∀ cmd s, ∃ r, result (drv_query drv cmd s) = Value r.
Hypothesis segments_reported :
  ∀ s r, result (drv_query drv "ACQ:COUN?" s) = Value r → is_Some (py_int r).
Hypothesis never_complete : ∀ s, result (drv_query drv "ACQ:STAT?" s) ≠ Value "COMP".






End NeverComplete.

(** ** The constructor *)



(** * Further properties of the methods *)

(** ** opc_check *)

Section Completion.

(** The completion query is answered, with [True] or [False]. *)
Hypothesis opc_answered : ∀ s, ∃ b, result (drv_query_opc drv s) = Value b.

(** The loop of [opc_check] leaves by itself: each round that does not see
    the flag sleeps for a tenth of a second, and [n] tenths exhaust what is
    left of the timeout. *)
Lemma opc_check_loop_returns start T :
  ∀ fuel n w,
    opc_timeout (self w) = Some T →
    1000 * T - (clock w - start) < 100 * Z.of_nat n →
    (n < fuel)%nat →
    ∃ w' es,
      opc_check_loop drv fuel start w = (Ret tt, w') ∧
      trace w' = trace w ++ es ∧ self w' = self w ∧ files w' = files w ∧
      clock w ≤ clock w' ∧ writes es = [] ∧
      ((∀ s, result (drv_query_opc drv s) = Value false) →
       last es = Some (Print "OPC timeout.") ∧ 1000 * T < clock w' - start).
Proof.
  induction fuel as [|fuel IH]; intros n w HT Hleft Hfuel; [lia |].
  destruct (opc_answered (instr w)) as [b Hb].
  simpl. run. rewrite Hb.
  destruct b.
  - eexists _, [_]. split; [reflexivity |]. simpl. split_and!; try done; [lia |].
    intros Hnever. rewrite Hnever in Hb. discriminate.
  - simpl. rewrite HT. simpl.
    case_bool_decide as Hover.
    + eexists _, [_; _]. split; [reflexivity |]. simpl.
      split; [same_trace |]. split_and!; try done; [lia |].
      intros _. split; [done | lia].
    + assert (Hn : (0 < n)%nat) by (destruct n; [simpl in *; lia | lia]).
      simpl.
      match goal with
      | |- context [opc_check_loop drv fuel start ?w2] =>
          destruct (IH (n - 1)%nat w2)
            as (w' & es & Hrun & Htr & Hself & Hfiles & Hclk & Hwr & Hto);
          [done | simpl; lia | lia |]
      end.
      rewrite Hrun; simpl in *.
      eexists w', (_ :: _ :: es).
      split; [done |]. split; [same_trace |].
      split_and!; [done | done | lia | done |].
      intros Hnever. destruct (Hto Hnever) as [Hlast Hlate].
      split; [| done]. destruct es as [|e es]; [done |]. exact Hlast.
Qed.

Lemma opc_check_returns fuel w T :
  opc_timeout (self w) = Some T →
  (Z.to_nat (10 * T) + 2 ≤ fuel)%nat →
  ∃ w' es,
    opc_check drv fuel w = (Ret tt, w') ∧
    trace w' = trace w ++ es ∧ self w' = self w ∧ files w' = files w ∧
    writes es = [] ∧
    ((∀ s, result (drv_query_opc drv s) = Value false) →
     last es = Some (Print "OPC timeout.") ∧ 1000 * T < clock w' - clock w).
Proof.
  intros HT Hfuel. unfold opc_check. run.
  destruct (opc_check_loop_returns (clock w) T fuel (Z.to_nat (10 * T) + 1) w)
    as (w' & es & Hrun & Htr & Hself & Hfiles & _ & Hwr & Hto); [done | lia | lia |].
  exists w', es. done.
Qed.

End Completion.

(** X1: when the instrument never reports an operation as complete,
    [opc_check] still returns: after more than [opc_timeout] seconds it
    prints its timeout and gives up, having written no command and changed
    neither the session nor the disk. *)
Theorem opc_check_gives_up fuel w T :
  (∀ s, result (drv_query_opc drv s) = Value false) →
  opc_timeout (self w) = Some T →
  (Z.to_nat (10 * T) + 2 ≤ fuel)%nat →
  ∃ w' es,
    opc_check drv fuel w = (Ret tt, w') ∧
    trace w' = trace w ++ es ∧
    last es = Some (Print "OPC timeout.") ∧
    1000 * T < clock w' - clock w ∧
    writes es = [] ∧ self w' = self w ∧ files w' = files w.
Proof.
  intros Hnever HT Hfuel.
  destruct (opc_check_returns (λ s, ex_intro _ false (Hnever s)) fuel w T HT Hfuel)
    as (w' & es & Hrun & Htr & Hself & Hfiles & Hwr & Hto).
  destruct (Hto Hnever) as [Hlast Hlate].
  exists w', es. done.
Qed.

(** ** query_time *)

(** X2: [query_time] never returns the value that flags a channel as
    unavailable.  It returns the time axis, made from the first three entries
    of the header, or it raises a [TypeError]: the one of its own handler,
    whatever was raised inside. *)
Theorem query_time_outcomes fuel channel w :
  match (query_time drv linspace fuel channel w).1 with
  | Ret time_data =>
      ∃ start stop count more,
        result (drv_query_bin_or_ascii_float_list drv
                  ("CHAN" +:+ pretty channel +:+ ":DATA:HEAD?") (instr w))
        = Value (start :: stop :: count :: more) ∧
        0 ≤ int_of_float count ∧
        time_data = Some (linspace start stop (int_of_float count))
  | Raise e => exn_cls e = TypeError
  | Hang => True
  end.
Proof.
  unfold query_time. run.
  destruct (result _) as [chan_data | msg] eqn:Hres; simpl; [| done].
  destruct (opc_check drv fuel _) as [[[] | e |] w1]; simpl; [| done | done].
  destruct chan_data as [|start [|stop [|count more]]]; simpl; try done.
  case_bool_decide; simpl; [done |].
  exists start, stop, count, more. split_and!; [done | lia | done].
Qed.

(** ** save_channels on a channel set without a first channel *)

(** X3: [save_channels] reads [self.channels[0]] first.  On an empty list it
    raises an [IndexError], on a bare number a [TypeError], before anything is
    sent to the instrument or written. *)
Theorem save_channels_needs_channel_list fuel w :
  match channels (self w) with
  | ChanList [] =>
      save_channels drv repr_float linspace fuel w
      = (Raise (Exn IndexError "list index out of range"), w)
  | Single _ =>
      save_channels drv repr_float linspace fuel w
      = (Raise (Exn TypeError "'int' object is not subscriptable"), w)
  | ChanList (_ :: _) => True
  end.
Proof.
  unfold save_channels, first_channel. run.
  by destruct (channels (self w)) as [c | [|c cs]].
Qed.

(** ** Methods that keep their exceptions *)

Lemma try_except_never_raises {A} (body : M A) (handler : exn → M A) w e :
  (∀ ex w1, ∃ a w', handler ex w1 = (Ret a, w')) →
  (try_except body handler w).1 ≠ Raise e.
Proof.
  intros Hhandler. unfold try_except.
  destruct (body w) as [[a | e' |] w1]; simpl; [done | | done].
  by destruct (Hhandler e' w1) as (a & w' & ->).
Qed.

(** X4: no exception leaves [calibration] or [query_data], whatever the
    driver does: each of them catches what is raised inside, the error of a
    driver call or the missing timeout of a session that did not open, and
    prints it. *)
Theorem handlers_keep_exceptions fuel channel w e :
  (calibration drv fuel w).1 ≠ Raise e ∧
  (query_data drv fuel channel w).1 ≠ Raise e.
Proof.
  split_and!; apply try_except_never_raises; intros ex w1; by eexists _, _.
Qed.

(** ** check_file_exists *)

(** X5: [check_file_exists] always returns, whatever is on the disk; the
    name it returns is not that of an existing file, and it changes neither
    the disk nor the session. *)
Theorem check_file_exists_names_no_existing_file format w :
  ∃ k w',
    check_file_exists format w = (Ret (candidate (base_name (self w)) format k), w') ∧
    files w !! candidate (base_name (self w)) format k = None ∧
    files w' = files w ∧ self w' = self w.
Proof.
  destruct (check_file_exists_returns format w) as (k & _ & Hfree & ->).
  exists k. eexists. split; [reflexivity |].
  by destruct (verbose (self w)).
Qed.

(** ** Steps that return *)

Lemma write_str_returns cmd w :
  result (drv_write_str drv cmd (instr w)) = Value tt →
  ∃ w1,
    write_str drv cmd w = (Ret tt, w1) ∧
    trace w1 = trace w ++ [Call (WriteStr cmd)] ∧
    self w1 = self w ∧ files w1 = files w.
Proof. intros H. run. rewrite H. by eexists. Qed.

Lemma writes_app es1 es2 : writes (es1 ++ es2) = writes es1 ++ writes es2.
Proof. apply omap_app. Qed.

(** ** channel_select *)

Section Channels.

Variable fuel : nat.

(** What is known of the session, and kept when a bare channel number is
    stored back as a list. *)
Variable J : Session → Prop.
Hypothesis J_channels : ∀ s cs, J s → J (set_channels cs s).

(** The instrument accepts the commands to its channels, and [opc_check]
    returns without a command of its own. *)
Hypothesis channel_commands_accepted :
  ∀ cmd s, String.prefix "CHAN" cmd = true → result (drv_write_str drv cmd s) = Value tt.

Hypothesis opc_check_frames : ∀ w, J (self w) → ∃ w' es,
  opc_check drv fuel w = (Ret tt, w') ∧ trace w' = trace w ++ es ∧
  writes es = [] ∧ self w' = self w ∧ files w' = files w.

Lemma channels_on_switches (cs : list Z) :
  ∀ w, J (self w) → ∃ w' es,
    for_each cs (λ channel,
      write_str drv ("CHAN" +:+ pretty channel +:+ ":STAT ON");;
      opc_check drv fuel) w = (Ret tt, w') ∧
    trace w' = trace w ++ es ∧ writes es = channel_on <$> cs ∧
    self w' = self w ∧ files w' = files w.
Proof.
  induction cs as [|c cs IH]; intros w HJ.
  - exists w, []. by rewrite app_nil_r.
  - simpl.
    destruct (write_str_returns ("CHAN" +:+ pretty c +:+ ":STAT ON") w)
      as (w1 & Hrun1 & Htr1 & Hself1 & Hfiles1);
      [apply channel_commands_accepted, prefix_app |].
    destruct (opc_check_frames w1) as (w2 & es2 & Hrun2 & Htr2 & Hwr2 & Hself2 & Hfiles2);
      [by rewrite Hself1 |].
    destruct (IH w2) as (w3 & es3 & Hrun3 & Htr3 & Hwr3 & Hself3 & Hfiles3);
      [by rewrite Hself2, Hself1 |].
    exists w3, ([Call (WriteStr (channel_on c))] ++ es2 ++ es3).
    split.
    { erewrite ret_bind; [exact Hrun3 |]. erewrite ret_bind; [exact Hrun2 | exact Hrun1]. }
    split_and!; [| | congruence | congruence].
    + rewrite Htr3, Htr2, Htr1. unfold channel_on. by rewrite <- !app_assoc.
    + unfold writes in *. simpl. by rewrite omap_app, Hwr2, Hwr3.
Qed.

(** [channel_select] returns after its commands; the session is the same but
    for a bare channel number, which is stored back as a list. *)
Lemma channel_select_switches w :
  J (self w) →
  ∃ w' es,
    channel_select drv fuel w = (Ret tt, w') ∧
    trace w' = trace w ++ es ∧
    writes es = "CHAN:AOFF" :: (channel_on <$> channel_list (channels (self w))) ∧
    self w' = match channels (self w) with
              | ChanList _ => self w
              | Single c => set_channels (ChanList [c]) (self w)
              end ∧
    files w' = files w.
Proof.
  intros HJ. unfold channel_select.
  destruct (write_str_returns "CHAN:AOFF" w) as (w1 & Hrun1 & Htr1 & Hself1 & Hfiles1);
    [by apply channel_commands_accepted |].
  rewrite (ret_bind _ _ _ _ _ Hrun1).
  rewrite (ret_bind get_self _ w1 (self w1) w1 eq_refl).
  rewrite Hself1.
  destruct (channels (self w)) as [c | cs] eqn:Hchan.
  - erewrite ret_bind; [| reflexivity].
    match goal with
    | |- context [for_each [c] _ ?w2] =>
        destruct (channels_on_switches [c] w2)
          as (w3 & es3 & Hrun3 & Htr3 & Hwr3 & Hself3 & Hfiles3);
        [by apply J_channels |]
    end.
    exists w3, ([Call (WriteStr "CHAN:AOFF")] ++ es3). simpl in *.
    split; [exact Hrun3 |].
    split_and!; [| unfold writes in *; simpl; by rewrite Hwr3 | done | congruence].
    rewrite Htr3, Htr1. by rewrite <- app_assoc.
  - erewrite ret_bind; [| reflexivity].
    destruct (channels_on_switches cs w1)
      as (w3 & es3 & Hrun3 & Htr3 & Hwr3 & Hself3 & Hfiles3); [by rewrite Hself1 |].
    exists w3, ([Call (WriteStr "CHAN:AOFF")] ++ es3). simpl in *.
    split; [exact Hrun3 |].
    split_and!; [| unfold writes in *; simpl; by rewrite Hwr3 | congruence | congruence].
    rewrite Htr3, Htr1. by rewrite <- app_assoc.
Qed.

End Channels.

(** X6: on an instrument that accepts the commands to its channels and
    answers the completion query, [channel_select] switches all channels off
    and then the configured ones on, in their order, and writes nothing else;
    a bare channel number is stored back as a list of one channel. *)
Theorem channel_select_switches_configured_channels fuel w T :
  (∀ cmd s, String.prefix "CHAN" cmd = true →
            result (drv_write_str drv cmd s) = Value tt) →
  (∀ s, ∃ b, result (drv_query_opc drv s) = Value b) →
  opc_timeout (self w) = Some T →
  (Z.to_nat (10 * T) + 2 ≤ fuel)%nat →
  ∃ w' es,
    channel_select drv fuel w = (Ret tt, w') ∧
    trace w' = trace w ++ es ∧
    writes es = "CHAN:AOFF" :: (channel_on <$> channel_list (channels (self w))) ∧
    channels (self w') = ChanList (channel_list (channels (self w))) ∧
    files w' = files w.
Proof.
  intros Haccepted Hanswered HT Hfuel.
  destruct (channel_select_switches fuel (λ s, opc_timeout s = Some T)) with (w := w)
    as (w' & es & Hrun & Htr & Hwr & Hself & Hfiles); [done | done | | done |].
  - intros w0 HT0.
    destruct (opc_check_returns Hanswered fuel w0 T HT0 Hfuel)
      as (w' & es & Hrun & Htr & Hself & Hfiles & Hwr & _).
    by exists w', es.
  - exists w', es. split_and!; [exact Hrun | exact Htr | exact Hwr | | exact Hfiles].
    rewrite Hself. by destruct (channels (self w)) eqn:Hchan.
Qed.

(** ** save_channels without a time axis *)

(** X7: when the header query of the first channel raises, [save_channels]
    raises the [TypeError] of [query_time] after the one printed line: no
    samples are asked for and no file is written. *)
Theorem save_channels_fails_without_time_axis fuel w c0 cs msg :
  channels (self w) = ChanList (c0 :: cs) →
  result (drv_query_bin_or_ascii_float_list drv
            ("CHAN" +:+ pretty c0 +:+ ":DATA:HEAD?") (instr w)) = Error msg →
  ∃ e w',
    save_channels drv repr_float linspace fuel w = (Raise e, w') ∧
    exn_cls e = TypeError ∧
    trace w' = trace w ++
      [head_query c0;
       Print ("Channel " +:+ pretty c0 +:+ " unavailable! " +:+ blanks 18 +:+
              "Please check connection" +:+ nl)] ∧
    files w' = files w.
Proof.
  intros Hchan Hres. unfold save_channels, first_channel, query_time. run.
  rewrite Hchan. simpl. rewrite Hres. simpl.
  eexists _, _. split; [reflexivity |]. simpl.
  split_and!; [done | same_trace | done].
Qed.

(** ** average *)

(** X8: [average] always returns a boolean, whatever the driver does: its
    loop is bounded by the acquisition timeout, and what is raised inside,
    the missing timeout of a session that did not open included, is caught.
    It returns [True] right after its [STOP], and [False] right after the
    report of the error. *)
Theorem average_returns_boolean fuel N w :
  (match acquisition_timeout (self w) with
   | Some T => Z.to_nat T + 2
   | None => 1
   end ≤ fuel)%nat →
  ∃ b w',
    average drv fuel N w = (Ret b, w') ∧
    (b = true → last (trace w') = Some (Call (WriteStr "STOP"))) ∧
    (b = false →
     ∃ msg, last (trace w')
            = Some (Print ("An error occured while acquiring " +:+ blanks 18 +:+
                           "the data " +:+ nl +:+ msg))).
Proof.
  intros Hfuel. unfold average. run.
  repeat (destruct (result (drv_write_str _ _ _)); simpl;
          [| eexists false, _; split; [reflexivity |];
             split; [done | intros _; eexists; apply last_snoc]]).
  match goal with
  | |- context [average_wait drv fuel ?st ?w1] =>
      pose proof (average_wait_ends (acquisition_timeout (self w)) st fuel
                    (match acquisition_timeout (self w) with
                     | Some T => Z.to_nat T + 1
                     | None => 0
                     end)%nat w1 eq_refl) as Hend;
      destruct (average_wait drv fuel st w1) as [[[] | e |] w2]
  end; simpl in *.
  - destruct (result (drv_write_str _ _ _)); simpl.
    + eexists true, _. split; [reflexivity |]. split; [intros _; apply last_snoc | done].
    + eexists false, _. split; [reflexivity |].
      split; [done | intros _; eexists; apply last_snoc].
  - eexists false, _. split; [reflexivity |].
    split; [done | intros _; eexists; apply last_snoc].
  - destruct Hend; [| | done]; destruct (acquisition_timeout (self w)); lia.
Qed.

(** ** acquire: what is sent for the record length and the shots *)

(** X9: with the automatic record length, [acquire] writes no command that
    sets a record length, in any mode and whatever the length it is given. *)
Theorem acquire_auto_sets_no_record_length fuel mode N L w :
  ∃ es,
    trace (acquire drv repr_float linspace fuel mode N true L w).2 = trace w ++ es ∧
    picked is_record_length es = [].
Proof.
  set (t := acquisition_timeout (self w)).
  pose proof (safe_channel_select is_record_length t 0%nat fuel
                chan_not_record_length) as Hselect.
  pose proof (safe_acquire_shots is_record_length t 0%nat fuel
                other_not_record_length mode N) as Hshots.
  pose proof (safe_acquire_save is_record_length t 0%nat fuel
                chan_not_record_length) as Hsave.
  assert (Hall : safe is_record_length t (polls_answered drv t 0 fuel) (λ _, True)
                   (acquire drv repr_float linspace fuel mode N true L)).
  { unfold acquire, acquire_record_length. safe_auto. }
  destruct (Hall w eq_refl) as (_ & Hes & _). exact Hes.
Qed.

(** X10: in a mode that is neither an average nor a multi-single acquisition,
    [acquire] writes at most one command that sets the number of single
    shots; it asks for one shot, whatever [N] is, and it was written whenever
    [acquire] returns [True]. *)
Theorem acquire_single_takes_one_shot fuel mode N auto L w :
  contains "AVER" mode = false →
  contains "NSING" mode = false →
  ∃ es,
    trace (acquire drv repr_float linspace fuel mode N auto L w).2 = trace w ++ es ∧
    ((picked is_shot_count es = [] ∧
      (acquire drv repr_float linspace fuel mode N auto L w).1 ≠ Ret true) ∨
     picked is_shot_count es = ["ACQ:NSIN:COUN 1"]).
Proof.
  intros Haver Hnsing.
  set (t := acquisition_timeout (self w)).
  set (T := polls_answered drv t 0 fuel).
  set (cmd := "ACQ:NSIN:COUN 1").
  set (P := λ _ : list event, True).
  assert (P_more : ∀ before es after : list event, P es → P (before ++ es ++ after))
    by done.
  pose proof (safe_channel_select is_shot_count t 0%nat fuel
                chan_not_shot_count) as Hselect.
  pose proof (safe_acquire_record_length is_shot_count t 0%nat fuel
                other_not_shot_count auto L) as Hlength.
  pose proof (safe_acquire_save is_shot_count t 0%nat fuel
                chan_not_shot_count) as Hsave.
  pose proof (safe_acquire_wait is_shot_count t 0%nat fuel) as Hwait.
  assert (Hshots : sends_once is_shot_count t cmd P (acquire_shots drv fuel mode N)).
  { unfold acquire_shots, check_hist_values, int_of_str. rewrite Haver, Hnsing.
    apply (once_after _ _ T _ _ P_more (λ _, True)); [safe_auto | intros [? ?] _].
    apply (once_after _ _ T _ _ P_more (λ _, True)); [safe_auto | intros limit _].
    apply (once_after _ _ T _ _ P_more (λ _, True)); [safe_auto | intros count _].
    apply (once_after _ _ T _ _ P_more (λ _, True)); [safe_auto | intros _ _].
    apply (once_before _ _ T _ _ P_more (λ _, True)).
    - apply (once_before _ _ T _ _ P_more (λ _, True)).
      + apply once_write_str; done.
      + intros _. safe_auto.
    - intros hist. safe_auto. }
  unfold acquire, try_except.
  match goal with
  | |- context [(channel_select drv fuel ≫= ?k) w] =>
      assert (Hbody : sends_once is_shot_count t cmd P (channel_select drv fuel ≫= k))
  end.
  { apply (once_after _ _ T _ _ P_more (λ _, True)); [done | intros _ _].
    apply (once_after _ _ T _ _ P_more (λ _, True)); [safe_auto | intros _ _].
    apply (once_after _ _ T _ _ P_more (λ _, True)); [done | intros _ _].
    apply (once_before _ _ T _ _ P_more (λ _, True)); [done |].
    intros hist. safe_auto. }
  destruct (Hbody w eq_refl) as (_ & es & Htr & Hcases).
  destruct ((channel_select drv fuel ≫= _) w) as [[b | e |] w1]; simpl in *.
  - exists es. split; [done |].
    destruct Hcases as [[_ Hno] | [? _]]; [by destruct (Hno b) | by right].
  - exists (es ++ [Print ("Error while acquiring data" +:+ exn_msg e)]).
    split; [by rewrite Htr, app_assoc |].
    rewrite picked_app, app_nil_r.
    destruct Hcases as [[Hp _] | [Hp _]]; [by left | by right].
  - exists es. split; [done |].
    destruct Hcases as [[Hp _] | [? _]]; [by left | by right].
Qed.

(** ** Files that are on the disk stay as they are *)

(** [keeps c]: a run of [c] leaves every file that is on the disk in its
    place, with its content. *)
Definition keeps {A} (c : M A) : Prop := ∀ w, files w ⊆ files (c w).2.

Lemma keeps_ret {A} (a : A) : keeps (mret a).
Proof. intros w. done. Qed.

Lemma keeps_bind {A C} (c : M A) (k : A → M C) :
  keeps c → (∀ a, keeps (k a)) → keeps (c ≫= k).
Proof.
  intros Hc Hk w. unfold mbind, M_bind. specialize (Hc w).
  destruct (c w) as [[a | e |] w1]; simpl in *; [| done | done].
  etrans; [exact Hc | apply Hk].
Qed.

Lemma keeps_try {A} (body : M A) (handler : exn → M A) :
  keeps body → (∀ e, keeps (handler e)) → keeps (try_except body handler).
Proof.
  intros Hc Hk w. unfold try_except. specialize (Hc w).
  destruct (body w) as [[a | e |] w1]; simpl in *; [done | | done].
  etrans; [exact Hc | apply Hk].
Qed.

Lemma keeps_same {A} (c : M A) : (∀ w, files (c w).2 = files w) → keeps c.
Proof. intros H w. by rewrite H. Qed.

Lemma keeps_call {A} r (f : D → reply D A) : keeps (call r f).
Proof. apply keeps_same. intros w. unfold call. by destruct (result _). Qed.

Lemma keeps_when b (c : M unit) : keeps c → keeps (when b c).
Proof. intros Hc. destruct b; [done | apply keeps_ret]. Qed.

Lemma keeps_attribute {A} name (field : Session → option A) :
  keeps (attribute name field).
Proof. apply keeps_same. intros w. run. by destruct (field (self w)). Qed.

Lemma keeps_index {A} (l : list A) i : keeps (index l i).
Proof. apply keeps_same. intros w. run. by destruct (l !! i). Qed.

Lemma keeps_for_each {A} (l : list A) (body : A → M unit) :
  (∀ x, keeps (body x)) → keeps (for_each l body).
Proof.
  intros Hbody. induction l as [|x l IH]; simpl; [apply keeps_ret |].
  apply keeps_bind; [apply Hbody | intros _; apply IH].
Qed.

(** The one step that writes: the name that [check_file_exists] gives is
    not that of a file. *)
Lemma keeps_write_file rows headers : keeps (write_file rows headers).
Proof.
  intros w. unfold write_file. run.
  destruct (check_file_exists_returns (file_format (self w)) w)
    as (k & _ & Hfree & ->).
  destruct (verbose (self w)) eqn:Hv; simpl; rewrite ?Hv; simpl;
    by apply insert_subseteq.
Qed.

Lemma keeps_check_file_exists format : keeps (check_file_exists format).
Proof.
  apply keeps_same. intros w.
  destruct (check_file_exists_returns format w) as (k & _ & _ & ->).
  by destruct (verbose (self w)).
Qed.

Create HintDb keeps.

Ltac keeps_step :=
  lazymatch goal with
  | |- keeps (_ ≫= _) => apply keeps_bind
  | |- keeps (mret _) => apply keeps_ret
  | |- keeps (try_except _ _) => apply keeps_try
  | |- keeps (when _ _) => apply keeps_when
  | |- keeps (for_each _ _) => apply keeps_for_each
  | |- keeps (attribute _ _) => apply keeps_attribute
  | |- keeps (index _ _) => apply keeps_index
  | |- keeps (write_str _ _) => apply keeps_call
  | |- keeps (query _ _) => apply keeps_call
  | |- keeps (query_str _ _) => apply keeps_call
  | |- keeps (query_opc _) => apply keeps_call
  | |- keeps (query_bin_or_ascii_float_list _ _) => apply keeps_call
  | |- keeps (call _ _) => apply keeps_call
  | |- keeps (write_file _ _) => apply keeps_write_file
  | |- keeps (check_file_exists _) => apply keeps_check_file_exists
  | |- keeps get_self => by apply keeps_same
  | |- keeps (put_self _) => by apply keeps_same
  | |- keeps (modify_self _) => by apply keeps_same
  | |- keeps (print _) => by apply keeps_same
  | |- keeps (sleep _) => by apply keeps_same
  | |- keeps time => by apply keeps_same
  | |- keeps (raise _ _) => by apply keeps_same
  | |- keeps hang => by apply keeps_same
  | |- keeps (if ?b then _ else _) => destruct b
  | |- keeps (match ?x with _ => _ end) => destruct x
  | |- keeps (let '(_, _) := ?x in _) => destruct x
  | |- keeps _ => fail
  | |- ∀ _, _ => intro
  end.

Ltac keeps_auto := repeat first [keeps_step | solve [auto with keeps nocore]].

Lemma keeps_opc_check fuel : keeps (opc_check drv fuel).
Proof.
  unfold opc_check. keeps_auto.
  match goal with |- keeps (opc_check_loop _ _ ?start) => generalize start end.
  induction fuel as [|f IH]; intros start; simpl; keeps_auto.
Qed.

Lemma keeps_save_channels_wait fuel : keeps (save_channels_wait drv fuel).
Proof. induction fuel as [|f IH]; simpl; keeps_auto. Qed.

Lemma keeps_acquire_wait fuel : keeps (acquire_wait drv fuel).
Proof. induction fuel as [|f IH]; simpl; keeps_auto. Qed.

Lemma keeps_average_wait fuel start : keeps (average_wait drv fuel start).
Proof. induction fuel as [|f IH]; simpl; keeps_auto. Qed.

#[local] Hint Resolve keeps_opc_check keeps_save_channels_wait keeps_acquire_wait
  keeps_average_wait : keeps.

Lemma keeps_channel_select fuel : keeps (channel_select drv fuel).
Proof. unfold channel_select. keeps_auto. Qed.

Lemma keeps_query_data fuel channel : keeps (query_data drv fuel channel).
Proof. unfold query_data. keeps_auto. Qed.

Lemma keeps_query_time fuel channel : keeps (query_time drv linspace fuel channel).
Proof. unfold query_time. keeps_auto. Qed.

#[local] Hint Resolve keeps_channel_select keeps_query_data keeps_query_time : keeps.

Lemma keeps_save_channels_loop fuel cs :
  ∀ headers cols, keeps (save_channels_loop drv fuel cs headers cols).
Proof. induction cs as [|c cs IH]; intros headers cols; simpl; keeps_auto. Qed.

#[local] Hint Resolve keeps_save_channels_loop : keeps.

Lemma keeps_save_channels fuel : keeps (save_channels drv repr_float linspace fuel).
Proof. unfold save_channels, first_channel, iter_channels. keeps_auto. Qed.

#[local] Hint Resolve keeps_save_channels : keeps.

Lemma keeps_save_history fuel : keeps (save_history drv repr_float linspace fuel).
Proof.
  unfold save_history, int_of_str, save_history_segment, first_channel. keeps_auto.
Qed.

Lemma keeps_average fuel N : keeps (average drv fuel N).
Proof. unfold average. keeps_auto. Qed.

#[local] Hint Resolve keeps_save_history keeps_average : keeps.

Lemma keeps_acquire fuel mode N auto L :
  keeps (acquire drv repr_float linspace fuel mode N auto L).
Proof.
  unfold acquire, acquire_record_length, checked_length, acquire_shots,
    check_hist_values, int_of_str, acquire_save.
  keeps_auto.
Qed.

(** X11: no method overwrites or removes a file: whatever the driver does,
    and however the run ends, a file that is on the disk before
    [save_channels], [save_history] or [acquire] is there afterwards with the
    same content. *)
Theorem methods_overwrite_no_file fuel mode N auto L w p content :
  files w !! p = Some content →
  files (save_channels drv repr_float linspace fuel w).2 !! p = Some content ∧
  files (save_history drv repr_float linspace fuel w).2 !! p = Some content ∧
  files (acquire drv repr_float linspace fuel mode N auto L w).2 !! p = Some content.
Proof.
  intros Hp.
  split_and!; (eapply lookup_weaken; [exact Hp |]).
  - apply keeps_save_channels.
  - apply keeps_save_history.
  - apply keeps_acquire.
Qed.

(** ** acquire and the average it asks for *)

Lemma outputs_nil_writes es : outputs es = [] → writes es = [].
Proof.
  unfold outputs, writes. induction es as [|e es IH]; [done |].
  rewrite filter_cons. destruct (decide _) as [Ho | Ho]; [done |].
  intros H. destruct e as [[] | | |]; simpl in *; try (by apply IH); by destruct Ho.
Qed.

(** X12: [acquire] does not look at what [average] returns.  On an
    instrument that refuses to be set to averaging, [average] reports the
    error and returns [False]; [acquire] returns [True] all the same. *)
Theorem acquire_succeeds_when_average_fails fuel mode N auto L w msg :
  contains "AVER" mode = true →
  save (self w) = false →
  (∀ cmd s, String.prefix "ACQ:TYPE" cmd = false →
            result (drv_write_str drv cmd s) = Value tt) →
  (∀ s, result (drv_write_str drv "ACQ:TYPE AVER" s) = Error msg) →
  (∀ s, result (drv_query_opc drv s) = Value true) →
  (0 < fuel)%nat →
  ∃ w' es,
    acquire drv repr_float linspace fuel mode N auto L w = (Ret true, w') ∧
    trace w' = trace w ++ es ∧
    last es = Some (Print ("An error occured while acquiring " +:+ blanks 18 +:+
                           "the data " +:+ nl +:+ msg)) ∧
    (∀ w0, (average drv fuel N w0).1 = Ret false).
Proof.
  intros Haver Hsave Hacc Hrej Hready Hfuel.
  destruct (channel_select_switches fuel (λ _, True)) with (w := w)
    as (w1 & es1 & Hrun1 & Htr1 & _ & Hself1 & _); [done | | | done |].
  - intros cmd s Hcmd. apply Hacc. by apply chan_not_acq.
  - intros w0 _.
    destruct (opc_check_ready Hready fuel w0 Hfuel)
      as (w' & Hrun & (es & Htr & Hout) & Hself & Hfiles).
    exists w', es. split_and!; [done | done | by apply outputs_nil_writes | done | done].
  - assert (Hsave1 : save (self w1) = false).
    { rewrite Hself1. by destruct (channels (self w)). }
    assert (Hfalse : ∀ w0, (average drv fuel N w0).1 = Ret false).
    { intros w0. unfold average. run. by rewrite Hrej. }
    unfold acquire, try_except. rewrite (ret_bind _ _ _ _ _ Hrun1).
    unfold acquire_record_length, checked_length, acquire_shots, average, acquire_save.
    rewrite Haver. run.
    rewrite (Hacc "ACQ:SEGM:STAT ON") by reflexivity. simpl.
    destruct auto; simpl.
    + rewrite (Hacc "ACQ:POIN:AUT ON") by reflexivity. simpl.
      rewrite Hrej. simpl. rewrite Hsave1. simpl.
      eexists _, _. split; [reflexivity |]. simpl.
      split; [same_trace |]. split; [| done].
      rewrite last_app. reflexivity.
    + rewrite (Hacc "ACQ:POIN:AUT OFF") by reflexivity. simpl.
      rewrite (Hacc "ACQ:MEM DMEM") by reflexivity. simpl.
      destruct (num_gt L (Float 40000000)); [| destruct (num_lt L (Float 5000))]; simpl;
        rewrite (Hacc ("ACQ:POIN " +:+ _)) by reflexivity; simpl;
        rewrite Hrej; simpl; rewrite Hsave1; simpl;
        (eexists _, _; split; [reflexivity |]; simpl;
         split; [same_trace |]; split; [| done];
         rewrite last_app; reflexivity).
Qed.

(** ** Runs on an instrument that does what it is asked *)

(** [sends R ws c]: [c] returns, with a value for which [R] holds, after
    writing the commands [ws] and no other, and leaves the session and the
    disk as they are. *)
Definition sends {A} (R : A → Prop) (ws : list string) (c : M A) : Prop :=
  ∀ w, ∃ a w' es,
    c w = (Ret a, w') ∧ R a ∧ trace w' = trace w ++ es ∧ writes es = ws ∧
    self w' = self w ∧ files w' = files w.

Lemma sends_ret {A} (R : A → Prop) (a : A) : R a → sends R [] (mret a).
Proof. intros HR w. exists a, w, []. by rewrite app_nil_r. Qed.

Lemma sends_bind {A C} (R1 : A → Prop) (R : C → Prop) ws1 ws2 (c : M A) (k : A → M C) :
  sends R1 ws1 c → (∀ a, R1 a → sends R ws2 (k a)) → sends R (ws1 ++ ws2) (c ≫= k).
Proof.
  intros Hc Hk w.
  destruct (Hc w) as (a & w1 & es1 & Hrun1 & HR1 & Htr1 & Hwr1 & Hself1 & Hfiles1).
  destruct (Hk a HR1 w1) as (b & w2 & es2 & Hrun2 & HR2 & Htr2 & Hwr2 & Hself2 & Hfiles2).
  exists b, w2, (es1 ++ es2). rewrite (ret_bind _ _ _ _ _ Hrun1).
  split_and!; [done | done | | | congruence | congruence].
  - by rewrite Htr2, Htr1, app_assoc.
  - by rewrite writes_app, Hwr1, Hwr2.
Qed.

(** The first step of a run, taken. *)
Lemma sends_then {A C} (R : A → Prop) ws (c : M A) (k : A → M C) w :
  sends R ws c →
  ∃ a w' es,
    R a ∧ trace w' = trace w ++ es ∧ writes es = ws ∧
    self w' = self w ∧ files w' = files w ∧ (c ≫= k) w = k a w'.
Proof.
  intros Hc.
  destruct (Hc w) as (a & w1 & es1 & Hrun1 & HR1 & Htr1 & Hwr1 & Hself1 & Hfiles1).
  exists a, w1, es1. by rewrite (ret_bind _ _ _ _ _ Hrun1).
Qed.

Lemma sends_print (R : unit → Prop) line : R tt → sends R [] (print line).
Proof. intros HR w. by eexists tt, _, [Print line]. Qed.

Lemma sends_when (R : unit → Prop) b c : R tt → sends R [] c → sends R [] (when b c).
Proof. intros HR Hc. destruct b; [done | by apply sends_ret]. Qed.

Lemma sends_get_self {A} (R : A → Prop) ws (k : Session → M A) :
  (∀ s, sends R ws (k s)) → sends R ws (get_self ≫= k).
Proof. intros Hk w. apply (Hk (self w) w). Qed.

(** The commands that set the record length, and the one that sets the
    number of single shots when the instrument has room for [capacity]
    segments. *)
Definition record_length_commands (auto : bool) (L : num) : list string :=
  if auto then ["ACQ:POIN:AUT ON"]
  else ["ACQ:POIN:AUT OFF"; "ACQ:MEM DMEM";
        "ACQ:POIN " +:+ format_num repr_float (clamp L (Float 5000) (Float 40000000))].

Definition shot_count_command (mode : string) (N capacity : Z) : string :=
  if contains "NSING" mode then "ACQ:NSIN:COUN " +:+ pretty (Z.min N capacity)
  else "ACQ:NSIN:COUN 1".

Section Cooperative.

Hypothesis writes_accepted : ∀ cmd s, result (drv_write_str drv cmd s) = Value tt.
Hypothesis opc_ready : ∀ s, result (drv_query_opc drv s) = Value true.
Hypothesis queries_answered : ∀ cmd s, ∃ r, result (drv_query drv cmd s) = Value r.

(** The instrument reports room for [capacity] segments, and each acquisition as
    complete. *)
Variable capacity : Z.
Hypothesis capacity_reported :
  ∀ s r, result (drv_query drv "ACQ:COUN?" s) = Value r → py_int r = Some capacity.
Hypothesis acquisition_complete :
  ∀ s, result (drv_query drv "ACQ:STAT?" s) = Value "COMP".

(** The header of the first configured channel is answered, and [K] segments
    are available. *)
Variable c0 : Z.
Hypothesis header_answered : ∀ s, ∃ start stop count more,
  result (drv_query_bin_or_ascii_float_list drv
            ("CHAN" +:+ pretty c0 +:+ ":DATA:HEAD?") s)
  = Value (start :: stop :: count :: more) ∧ 0 ≤ int_of_float count.

Variable K : Z.
Hypothesis segments_available : ∀ s, ∃ r,
  result (drv_query_str drv "ACQ:AVA?" s) = Value r ∧ py_int r = Some K.

Lemma sends_write_str (R : unit → Prop) cmd : R tt → sends R [cmd] (write_str drv cmd).
Proof.
  intros HR w.
  destruct (write_str_returns cmd w) as (w1 & ? & ? & ? & ?); [done |].
  by exists tt, w1, [Call (WriteStr cmd)].
Qed.

Lemma sends_query (R : string → Prop) cmd :
  (∀ s r, result (drv_query drv cmd s) = Value r → R r) → sends R [] (query drv cmd).
Proof.
  intros HR w. destruct (queries_answered cmd (instr w)) as [r Hr].
  exists r. run. rewrite Hr. eexists _, [_].
  split_and!; [done | by eapply HR | done..].
Qed.

Lemma sends_channel_select fuel w :
  (0 < fuel)%nat →
  ∃ w' es,
    channel_select drv fuel w = (Ret tt, w') ∧
    trace w' = trace w ++ es ∧
    writes es = "CHAN:AOFF" :: (channel_on <$> channel_list (channels (self w))) ∧
    self w' = match channels (self w) with
              | ChanList _ => self w
              | Single c => set_channels (ChanList [c]) (self w)
              end ∧
    files w' = files w.
Proof.
  intros Hfuel.
  apply (channel_select_switches fuel (λ _, True)); [done | done | | done].
  intros w0 _.
  destruct (opc_check_ready opc_ready fuel w0 Hfuel)
    as (w' & Hrun & (es & Htr & Hout) & Hself & Hfiles).
  exists w', es. split_and!; [done | done | by apply outputs_nil_writes | done | done].
Qed.

Lemma sends_acquire_record_length auto L :
  sends (λ _, True) (record_length_commands auto L)
    (acquire_record_length drv repr_float auto L).
Proof.
  unfold acquire_record_length, record_length_commands.
  destruct auto; [by apply sends_write_str |].
  apply (sends_bind (λ _, True) _ [_] [_; _]); [by apply sends_write_str | intros _ _].
  apply (sends_bind (λ _, True) _ [_] [_]); [by apply sends_write_str | intros _ _].
  apply (sends_bind (λ length, length = clamp L (Float 5000) (Float 40000000)) _ [] [_]);
    [| intros length ->; by apply sends_write_str].
  rewrite <- checked_is_clamp. unfold checked_length.
  destruct (num_gt _ _); [| destruct (num_lt _ _)];
    first [by apply sends_ret
          | apply (sends_bind (λ _, True) _ [] []);
            [by apply sends_print | intros _ _; by apply sends_ret]].
Qed.

Lemma sends_acquire_wait fuel :
  (0 < fuel)%nat → sends (λ _, True) [] (acquire_wait drv fuel).
Proof.
  intros Hfuel. destruct fuel as [|fuel]; [lia |].
  intros w. simpl. run. rewrite acquisition_complete. simpl.
  by eexists tt, _, [_].
Qed.

(** The single shots of [acquire]: the flag tells a multi-single run. *)
Lemma sends_acquire_shots fuel mode N :
  (0 < fuel)%nat →
  contains "AVER" mode = false →
  sends (λ hist, hist = contains "NSING" mode)
    ["ACQ:TYPE REFR"; shot_count_command mode N capacity; "RUNS"]
    (acquire_shots drv fuel mode N).
Proof.
  intros Hfuel Haver. unfold acquire_shots, check_hist_values, int_of_str.
  rewrite Haver.
  apply (sends_bind (λ p, py_int p.2 = Some capacity) _ [] [_; _; _]).
  { apply (sends_bind (λ _, True) _ [] []); [by apply sends_query | intros record_length _].
    apply (sends_bind (λ r, py_int r = Some capacity) _ [] []);
      [apply sends_query; apply capacity_reported | intros r Hr].
    by apply sends_ret. }
  intros [record_length max_segments] Hlimit. simpl in Hlimit. rewrite Hlimit.
  apply (sends_bind (λ limit, limit = capacity) _ [] [_; _; _]);
    [by apply sends_ret | intros limit ->].
  apply (sends_bind (λ count, count = Z.min N capacity) _ [] [_; _; _]).
  { case_bool_decide; [| apply sends_ret; lia].
    apply (sends_bind (λ n, n = capacity) _ [] []); [by apply sends_ret | intros n ->].
    apply sends_get_self. intros s.
    apply (sends_bind (λ _, True) _ [] []); [| intros _ _; apply sends_ret; lia].
    apply sends_when; [done | by apply sends_print]. }
  intros count ->.
  apply (sends_bind (λ _, True) _ [_] [_; _]); [by apply sends_write_str | intros _ _].
  apply (sends_bind (λ hist, hist = contains "NSING" mode) _ [_] [_]).
  { unfold shot_count_command. destruct (contains "NSING" mode);
      (apply (sends_bind (λ _, True) _ [_] []); [by apply sends_write_str | intros _ _]);
      by apply sends_ret. }
  intros hist ->.
  apply (sends_bind (λ _, True) _ [_] []); [by apply sends_write_str | intros _ _].
  apply (sends_bind (λ _, True) _ [] []); [by apply sends_acquire_wait | intros _ _].
  by apply sends_ret.
Qed.

(** [save_history] returns after its [K] files; the file name of the
    session has the index of every segment appended. *)
Lemma save_history_returns fuel w cs :
  (0 < fuel)%nat →
  channels (self w) = ChanList (c0 :: cs) →
  ∃ w',
    save_history drv repr_float linspace fuel w = (Ret tt, w') ∧
    self w' = foldl (λ s i, set_fname (fname s +:+ pretty (i + 1)) s) (self w)
                    (seqZ 0 K) ∧
    size (files w') = (size (files w) + Z.to_nat K)%nat.
Proof.
  intros Hfuel Hchan. unfold save_history, int_of_str. run.
  destruct (segments_available (instr w)) as (r & -> & ->).
  match goal with
  | |- context [for_each _ _ ?w1] =>
      destruct (save_history_loop_returns opc_ready c0 header_answered writes_accepted
                  fuel cs Hfuel (seqZ 0 K) w1 Hchan)
        as (w' & ks & -> & _ & _ & Hself & Hsize)
  end.
  rewrite length_seqZ in *. simpl in *. by exists w'.
Qed.

Lemma foldl_set_fname (l : list Z) : ∀ s,
  foldl (λ s i, set_fname (fname s +:+ pretty (i + 1)) s) s l
  = set_fname (foldl (λ name i, name +:+ pretty (i + 1)) (fname s) l) s.
Proof.
  induction l as [|i l IH]; intros s; simpl; [by destruct s |].
  by rewrite IH.
Qed.

(** X13: [save_history] does not restore the file name: when it returns,
    [fname] is the name it found followed by the indices 1, ..., [K] of all
    the segments, and the rest of the session is as before. *)
Theorem save_history_leaves_extended_name fuel w cs :
  (0 < fuel)%nat →
  channels (self w) = ChanList (c0 :: cs) →
  ∃ w',
    save_history drv repr_float linspace fuel w = (Ret tt, w') ∧
    self w' = set_fname (foldl (λ name i, name +:+ pretty (i + 1)) (fname (self w))
                               (seqZ 0 K)) (self w).
Proof.
  intros Hfuel Hchan.
  destruct (save_history_returns fuel w cs Hfuel Hchan) as (w' & Hrun & Hself & _).
  exists w'. split; [done |]. by rewrite Hself, foldl_set_fname.
Qed.

(** The acquisition of [acquire], up to the deferred save. *)
Lemma acquire_acquires fuel mode N auto L w :
  (0 < fuel)%nat →
  contains "AVER" mode = false →
  ∃ w4 es,
    trace w4 = trace w ++ es ∧
    writes es = "CHAN:AOFF" :: (channel_on <$> channel_list (channels (self w))) ++
                "ACQ:SEGM:STAT ON" :: record_length_commands auto L ++
                ["ACQ:TYPE REFR"; shot_count_command mode N capacity; "RUNS"] ∧
    self w4 = match channels (self w) with
              | ChanList _ => self w
              | Single c => set_channels (ChanList [c]) (self w)
              end ∧
    files w4 = files w ∧
    acquire drv repr_float linspace fuel mode N auto L w
    = try_except
        (acquire_save drv repr_float linspace fuel (contains "NSING" mode);;
         mret true)
        (λ ex, print ("Error while acquiring data" +:+ exn_msg ex);; mret false) w4.
Proof.
  intros Hfuel Haver.
  destruct (sends_channel_select fuel w Hfuel)
    as (w1 & es1 & Hrun1 & Htr1 & Hwr1 & Hself1 & Hfiles1).
  unfold acquire, try_except. rewrite (ret_bind _ _ _ _ _ Hrun1).
  match goal with
  | |- context [(write_str drv "ACQ:SEGM:STAT ON" ≫= ?k) w1] =>
      destruct (sends_then (λ _, True) _ (write_str drv "ACQ:SEGM:STAT ON") k w1
                  ltac:(by apply sends_write_str))
        as (_ & w2 & es2 & _ & Htr2 & Hwr2 & Hself2 & Hfiles2 & Hrun2)
  end.
  rewrite Hrun2. clear Hrun2.
  match goal with
  | |- context [(acquire_record_length drv repr_float auto L ≫= ?k) w2] =>
      destruct (sends_then (λ _, True) _ (acquire_record_length drv repr_float auto L)
                  k w2 (sends_acquire_record_length auto L))
        as (_ & w3 & es3 & _ & Htr3 & Hwr3 & Hself3 & Hfiles3 & Hrun3)
  end.
  rewrite Hrun3. clear Hrun3.
  match goal with
  | |- context [(acquire_shots drv fuel mode N ≫= ?k) w3] =>
      destruct (sends_then _ _ (acquire_shots drv fuel mode N) k w3
                  (sends_acquire_shots fuel mode N Hfuel Haver))
        as (hist & w4 & es4 & -> & Htr4 & Hwr4 & Hself4 & Hfiles4 & Hrun4)
  end.
  rewrite Hrun4. clear Hrun4.
  exists w4, (es1 ++ es2 ++ es3 ++ es4).
  split_and!; [| | congruence | congruence | done].
  - rewrite Htr4, Htr3, Htr2, Htr1. by rewrite <- !app_assoc.
  - rewrite !writes_app, Hwr1, Hwr2, Hwr3, Hwr4. reflexivity.
Qed.

(** X14: the commands of a single-shot or multi-single [acquire], on an
    instrument that does what it is asked and without the deferred save:
    all channels off, the configured ones on, the segmented memory on, the
    record length (automatic, or by hand with the clamped length), the
    acquisition type, the number of shots ([min N capacity] in a multi-single run,
    one otherwise) and the start, in this order and nothing else. *)
Theorem acquire_sends_its_commands fuel mode N auto L w :
  (0 < fuel)%nat →
  contains "AVER" mode = false →
  save (self w) = false →
  ∃ w' es,
    acquire drv repr_float linspace fuel mode N auto L w = (Ret true, w') ∧
    trace w' = trace w ++ es ∧
    writes es = "CHAN:AOFF" :: (channel_on <$> channel_list (channels (self w))) ++
                "ACQ:SEGM:STAT ON" :: record_length_commands auto L ++
                ["ACQ:TYPE REFR"; shot_count_command mode N capacity; "RUNS"].
Proof.
  intros Hfuel Haver Hsave.
  destruct (acquire_acquires fuel mode N auto L w Hfuel Haver)
    as (w4 & es & Htr & Hwr & Hself & Hfiles & ->).
  assert (Hsave4 : save (self w4) = false).
  { rewrite Hself. by destruct (channels (self w)). }
  exists w4, es. split; [| done].
  unfold try_except, acquire_save. run. by rewrite Hsave4.
Qed.

(** X15: the deferred save of [acquire].  With [save] set, on an instrument
    that does what it is asked, a single-shot [acquire] returns [True] after
    saving one new file, and a multi-single one after saving one new file for
    each of the [K] segments of the history; no earlier file is touched. *)
Theorem acquire_saves_when_asked fuel mode N auto L w cs :
  (0 < fuel)%nat →
  channels (self w) = ChanList (c0 :: cs) →
  save (self w) = true →
  contains "AVER" mode = false →
  ∃ w',
    acquire drv repr_float linspace fuel mode N auto L w = (Ret true, w') ∧
    size (files w')
    = (size (files w) + if contains "NSING" mode then Z.to_nat K else 1)%nat ∧
    files w ⊆ files w'.
Proof.
  intros Hfuel Hchan Hsave Haver.
  assert (Hkept := keeps_acquire fuel mode N auto L w).
  destruct (acquire_acquires fuel mode N auto L w Hfuel Haver)
    as (w4 & es & _ & _ & Hself & Hfiles & Hrun).
  rewrite Hrun in *. clear Hrun. rewrite Hchan in Hself.
  unfold try_except, acquire_save in *.
  assert (Hstep : ∀ X : M unit, (get_self ≫= (λ s, when (save s) X)) w4 = X w4).
  { intros X. unfold mbind, M_bind, get_self. cbv beta iota. by rewrite Hself, Hsave. }
  destruct (contains "NSING" mode); cbv iota in *.
  - destruct (save_history_returns fuel w4 cs Hfuel ltac:(by rewrite Hself))
      as (w5 & Hrun5 & _ & Hsize5).
    rewrite (ret_bind _ _ _ _ _ (eq_trans (Hstep _) Hrun5)) in *.
    exists w5. split_and!; [done | by rewrite Hsize5, Hfiles | exact Hkept].
  - destruct (save_channels_returns opc_ready c0 header_answered fuel w4 cs
                ltac:(by rewrite Hself) Hfuel)
      as (w5 & k & time_data & cols & Hrun5 & Hfree & Hfiles5 & _).
    rewrite (ret_bind _ _ _ _ _ (eq_trans (Hstep _) Hrun5)) in *.
    exists w5. split_and!; [done | | exact Hkept].
    rewrite Hfiles5, map_size_insert_None by done. rewrite Hfiles. lia.
Qed.

End Cooperative.

(** ** save_history and a count that is no number *)


(** ** The constructor on an instrument that opens *)

(** The object that [__init__] leaves when the session opened. *)
Definition opened (verbose : bool) : Session :=
  {| visa_timeout := Some 6000; opc_timeout := Some 15; acquisition_timeout := Some 10;
     instrument_status_checking := Some true;
     channels := ChanList [1; 2; 3; 4]; instr_path := "/INT/SCREEN/";
     path := dir_dropbox; folder := None; fname := "file"; file_format := "csv";
     screenshot_format := "png"; verbose := verbose; save := false |}.

(** X17: with a valid mode, on an instrument that opens and accepts what
    follows, the constructor returns the session with all its settings: the
    timeouts (the completion timeout is 15, the second of the two values it
    is given), the four channels and the file defaults.  It calls the driver
    for the version check, the open with the resource of the mode, the name
    of the instrument when verbose, and then [clear_status], [reset] and
    [CHAN:AON]. *)
Theorem constructor_sets_up_session address mode verbose w resource :
  resource_of address mode = Some resource →
  (∀ v s, result (drv_assert_minimum_version drv v s) = Value tt) →
  (∀ s, result (drv_open drv resource s) = Value tt) →
  (∀ s, ∃ name, result (drv_query_str drv "SYST:NAME?" s) = Value name) →
  (∀ s, result (drv_clear_status drv s) = Value tt) →
  (∀ s, result (drv_reset drv s) = Value tt) →
  (∀ s, result (drv_write_str drv "CHAN:AON" s) = Value tt) →
  ∃ w' es,
    RS_Scopes drv dir_dropbox address mode verbose w = (Ret tt, w') ∧
    trace w' = trace w ++ es ∧
    calls es = [AssertMinimumVersion "1.50.0"; Open resource] ++
               (if verbose then [QueryStr "SYST:NAME?"] else []) ++
               [ClearStatus; Reset; WriteStr "CHAN:AON"] ∧
    self w' = opened verbose.
Proof.
  intros Hres Hver Hopen Hname Hclear Hreset Hwrite.
  unfold RS_Scopes, __init__. run. rewrite Hver. simpl.
  rewrite Hres. simpl. rewrite Hopen. simpl.
  destruct verbose; simpl.
  - match goal with
    | |- context [result (drv_query_str drv "SYST:NAME?" ?s)] =>
        destruct (Hname s) as [name ->]
    end.
    simpl. rewrite Hclear. simpl. rewrite Hreset. simpl. rewrite Hwrite. simpl.
    eexists _, _. split; [reflexivity |]. simpl.
    split; [same_trace |]. done.
  - rewrite Hclear. simpl. rewrite Hreset. simpl. rewrite Hwrite. simpl.
    eexists _, _. split; [reflexivity |]. simpl.
    split; [same_trace |]. done.
Qed.

(** X18: the constructor opens the driver session once, with the resource
    of the mode; it does not open any when the mode is not one of the three
    or when the version check raised, whatever the driver does. *)
Theorem constructor_opens_at_most_once address mode verbose w :
  ∃ es,
    trace (RS_Scopes drv dir_dropbox address mode verbose w).2 = trace w ++ es ∧
    opens es
    = match result (drv_assert_minimum_version drv "1.50.0" (instr w)),
            resource_of address mode with
      | Value _, Some resource => [resource]
      | _, _ => []
      end.
Proof.
  unfold RS_Scopes, __init__. run.
  destruct (result (drv_assert_minimum_version drv "1.50.0" (instr w))); simpl;
    [| eexists; split; [same_trace | done]].
  destruct (resource_of address mode) as [resource|]; simpl;
    [destruct (result (drv_open _ _ _)); simpl; destruct verbose; simpl |];
    repeat (destruct (result _); simpl);
    (eexists; split; [same_trace | done]).
Qed.

(** ** screenshot *)

Lemma picked_nil sel es : writes es = [] → picked sel es = [].
Proof. unfold picked. by intros ->. Qed.

Lemma safe_check_file_exists_always sel t (T : Prop) format :
  safe sel t T (λ _, True) (check_file_exists format).
Proof.
  intros w Ht. unfold check_file_exists.
  destruct (check_file_exists_loop_calm sel t (S (size (files w))) (base_name (self w))
              format w Ht) as (H1 & H2 & _).
  split_and!; [done | done | done |]. intros _.
  destruct (check_file_exists_returns format w) as (k & _ & _ & Heq).
  unfold check_file_exists in Heq. by rewrite Heq.
Qed.

Section Screenshots.

(** The file transfer of RsInstrument: it leaves the session alone and
    writes no command of its own. *)
Variable transfer : string → string → M (D := D) unit.

Hypothesis transfer_quiet : ∀ source target w,
  self (transfer source target w).2 = self w ∧
  ∃ es, trace (transfer source target w).2 = trace w ++ es ∧ writes es = [].

Lemma safe_transfer sel t (T : Prop) (R : unit → Prop) source target :
  (∀ w, (transfer source target w).1 = Ret tt → R tt) →
  (T → ∀ w, (transfer source target w).1 ≠ Hang) →
  safe sel t T R (transfer source target).
Proof.
  intros HR Hend w Ht.
  destruct (transfer_quiet source target w) as (Hself & es & Htr & Hwr).
  split_and!.
  - by rewrite Hself.
  - exists es. split; [done | by apply picked_nil].
  - intros [] Ha. by apply (HR w).
  - intros HT. by apply Hend.
Qed.

(** X19: the copy on the instrument is deleted only after the transfer.
    When the transfer does not succeed, [screenshot] writes no [MMEM:DEL]
    command and does not return [True], whatever the driver does. *)
Theorem screenshot_keeps_copy_when_transfer_fails fuel w :
  (∀ source target w0, (transfer source target w0).1 ≠ Ret tt) →
  ∃ es,
    trace (screenshot drv transfer fuel w).2 = trace w ++ es ∧
    picked is_delete es = [] ∧
    (screenshot drv transfer fuel w).1 ≠ Ret true.
Proof.
  intros Hfails.
  set (t := acquisition_timeout (self w)).
  assert (Hall : safe is_delete t False (λ b, b = false) (screenshot drv transfer fuel)).
  { unfold screenshot.
    apply safe_get_self; intros s Hs.
    apply (safe_bind _ _ _ (λ _, True)); [safe_auto | intros _ _].
    apply safe_try; [| intros e; safe_auto].
    apply safe_get_self; intros s1 Hs1.
    apply (safe_bind _ _ _ (λ _, True)); [safe_auto | intros _ _].
    apply safe_get_self; intros s2 Hs2.
    apply (safe_bind _ _ _ (λ _, True)); [safe_auto | intros _ _].
    apply safe_get_self; intros s3 Hs3.
    apply (safe_bind _ _ _ (λ _, True)); [safe_auto | intros _ _].
    apply (safe_bind _ _ _ (λ _, True)); [safe_auto | intros _ _].
    apply (safe_bind _ _ _ (λ _, True)); [apply save_channels_wait_calm | intros _ _].
    apply safe_get_self; intros s4 Hs4.
    apply (safe_bind _ _ _ (λ _, True));
      [apply safe_check_file_exists_always | intros save_file _].
    apply safe_get_self; intros s5 Hs5.
    apply (safe_bind _ _ _ (λ _, False)); [| intros _ []].
    apply safe_transfer; [intros w0 H0; exact (Hfails _ _ _ H0) | tauto]. }
  destruct (Hall w eq_refl) as (_ & (es & Htr & Hp) & Hval & _).
  exists es. split_and!; [done | done |]. intros Hret. by specialize (Hval true Hret).
Qed.



End Screenshots.

(** ** The completion poll of save_channels *)

Lemma opc_check_loop_no_raise T :
  (∀ s, ∃ b, result (drv_query_opc drv s) = Value b) →
  ∀ fuel start w,
    opc_timeout (self w) = Some T →
    (∀ e, (opc_check_loop drv fuel start w).1 ≠ Raise e) ∧
    self (opc_check_loop drv fuel start w).2 = self w.
Proof.
  intros Hanswered. induction fuel as [|fuel IH]; intros start w HT; [done |].
  destruct (Hanswered (instr w)) as [b Hb].
  simpl. run. rewrite Hb. destruct b; simpl; [done |].
  rewrite HT. simpl. case_bool_decide; simpl; [done |].
  match goal with
  | |- context [opc_check_loop drv fuel start ?w2] =>
      destruct (IH start w2 HT) as [Hno Hself]
  end.
  split; [exact Hno | exact Hself].
Qed.

Lemma save_channels_wait_never :
  (∀ s, result (drv_query_opc drv s) = Value false) →
  ∀ fuel w, (save_channels_wait drv fuel w).1 = Hang.
Proof.
  intros Hnever. induction fuel as [|fuel IH]; intros w; [done |].
  simpl. run. rewrite Hnever. simpl. apply IH.
Qed.

(** X22: the completion poll of [save_channels] itself has no timeout.  On
    an instrument that never reports its operations as complete, each
    [opc_check] gives up after its timeout, but [save_channels] does not
    return, however many polls are followed: it stays in its own loop after
    the samples of the first channel. *)
Theorem save_channels_waits_without_timeout fuel w c0 cs T :
  (∀ s, result (drv_query_opc drv s) = Value false) →
  opc_timeout (self w) = Some T →
  channels (self w) = ChanList (c0 :: cs) →
  (∀ s, ∃ start stop count more,
     result (drv_query_bin_or_ascii_float_list drv
               ("CHAN" +:+ pretty c0 +:+ ":DATA:HEAD?") s)
     = Value (start :: stop :: count :: more) ∧ 0 ≤ int_of_float count) →
  (save_channels drv repr_float linspace fuel w).1 = Hang.
Proof.
  intros Hnever HT Hchan Hhead.
  assert (Hanswered : ∀ s, ∃ b, result (drv_query_opc drv s) = Value b)
    by (intros s; by exists false).
  unfold save_channels, first_channel, iter_channels, query_time. run.
  rewrite Hchan. simpl.
  destruct (Hhead (instr w)) as (start & stop & count & more & -> & Hcount).
  unfold opc_check. run.
  match goal with
  | |- context [opc_check_loop drv fuel ?st ?w1] =>
      destruct (opc_check_loop_no_raise T Hanswered fuel st w1 HT) as [Hno Hself1];
      destruct (opc_check_loop drv fuel st w1) as [[[] | e |] w2]
  end; simpl in *; [| by destruct (Hno e) | done].
  rewrite bool_decide_eq_false_2 by lia. simpl.
  rewrite Hself1, Hchan. simpl.
  pose proof (try_except_never_raises
                (chan_data ← query_bin_or_ascii_float_list drv
                               ("CHAN" +:+ pretty c0 +:+ ":DATA?");
                 opc_check drv fuel;; mret (Some chan_data))
                (λ ex,
                 print ("Channel " +:+ pretty c0 +:+
                        " unavailable. Please check connection" +:+ nl);;
                 print ("Exception raised: " +:+ exn_msg ex);;
                 mret None) w2) as Hdata.
  fold (query_data drv fuel c0) in Hdata.
  unfold mbind at 1, M_bind at 1.
  destruct (query_data drv fuel c0 w2) as [[data | e |] w3]; simpl in *;
    [| by destruct (Hdata e ltac:(intros; by eexists _, _)) | done].
  unfold mbind at 1, M_bind at 1.
  pose proof (save_channels_wait_never Hnever fuel w3) as Hwait.
  destruct (save_channels_wait drv fuel w3) as [o w4]. simpl in Hwait. by subst o.
Qed.

(** ** The rows of the file *)






(** ** The poll of calibration *)

Lemma calibration_wait_never :
  (∀ s, result (drv_query_str drv "CAL:STAT?" s) = Value "RUN") →
  ∀ fuel w, (calibration_wait drv fuel w).1 = Hang.
Proof.
  intros Hrun. induction fuel as [|fuel IH]; intros w; [done |].
  simpl. run. rewrite Hrun. simpl. apply IH.
Qed.

(** X24: the poll of [calibration] has no timeout.  As long as the status
    reads [RUN], [calibration] prints its progress line every ten seconds
    and does not return, however many polls are followed. *)
Theorem calibration_waits_while_running fuel w :
  (∀ s, result (drv_write_str drv "CAL" s) = Value tt) →
  (∀ s, result (drv_query_str drv "CAL:STAT?" s) = Value "RUN") →
  (calibration drv fuel w).1 = Hang.
Proof.
  intros Hcal Hrun. unfold calibration. run. rewrite Hcal. simpl.
  match goal with
  | |- context [calibration_wait drv fuel ?w1] =>
      pose proof (calibration_wait_never Hrun fuel w1) as Hwait;
      destruct (calibration_wait drv fuel w1) as [o w2]
  end.
  simpl in Hwait. by subst o.
Qed.

End Properties.

(** * The properties on the bench *)

Example candidate_one : candidate "/data/file" "csv" 1 = "/data/file-(copy).csv".
Proof. reflexivity. Qed.

Example candidate_two :
  candidate "/data/file" "csv" 2 = "/data/file-(copy)-(copy).csv".
Proof. reflexivity. Qed.

(** With [file.csv] and [file-(copy).csv] on disk, the third save goes to
    [file-(copy)-(copy).csv]. *)
Lemma check_file_exists_marker_per_collision_witness :
  (check_file_exists "csv" (Bench.start Bench.session tt Bench.saved_twice)).1
  = Ret (candidate "/data/file" "csv" 2).
Proof.
  apply (check_file_exists_marker_per_collision "csv"
           (Bench.start Bench.session tt Bench.saved_twice) 2).
  - intros j Hj.
    destruct j as [|[|j]]; [vm_compute; eauto.. | lia].
  - vm_compute. reflexivity.
Defined.

(** C1 as stated fails: the third save does not resolve to [file-(copy).csv]
    again. *)
Lemma check_file_exists_third_save_not_first_copy :
  is_Some (Bench.saved_twice !! "/data/file.csv") ∧
  is_Some (Bench.saved_twice !! "/data/file-(copy).csv") ∧
  (check_file_exists "csv" (Bench.start Bench.session tt Bench.saved_twice)).1
  ≠ Ret "/data/file-(copy).csv".
Proof.
  split_and!; [vm_compute; eauto.. |].
  vm_compute. discriminate.
Qed.

(** C5 on an instrument that never reports the average as complete, with
    the timeout of 10 seconds that [__init__] sets. *)
Lemma average_stops_once_witness :
  ∃ w' es,
    average Bench.stalled 12 50 (Bench.start Bench.session 0%nat ∅) = (Ret true, w') ∧
    trace w' = es ∧
    writes es = ["ACQ:TYPE AVER"; "ACQ:AVER:RES"; "ACQ:NSIN:COUN 1";
                 "ACQ:AVER:COUN 50"; "RUN"; "STOP"] ∧
    Print "Average acquisition timeout." ∈ es ∧
    10000 < clock w'.
Proof.
  assert (Hq : ∀ cmd s, ∃ r, result (drv_query Bench.stalled cmd s) = Value r).
  { intros cmd s. simpl. repeat case_bool_decide; eauto. }
  destruct (average_stops_once Bench.stalled (λ cmd s, eq_refl) Hq
              12 50 (Bench.start Bench.session 0%nat ∅) 10 eq_refl)
    as (w' & es & Hrun & Htr & Hwr & Hto); [simpl; lia |].
  destruct Hto as [Hin Hlate]; [intros s; discriminate |].
  exists w', es. simpl in *. split_and!; [done | done | done | done | lia].
Defined.

(** C2 at the failing input: the status query reads [RUN], [RUN], [OK];
    [calibration] then asks [CAL:SAT?], which the instrument does not know,
    and reports an error instead of the success. *)
Theorem calibration_misses_success :
  calibration Bench.aligning 3 (Bench.start Bench.session 0%nat ∅)
  = (Ret tt,
     World Bench.session 3%nat 20000 ∅
       [Call (WriteStr "CAL");
        Call (QueryStr "CAL:STAT?");
        Print "Instrument calibration in progress - please wait...";
        Sleep 10000;
        Call (QueryStr "CAL:STAT?");
        Print "Instrument calibration in progress - please wait...";
        Sleep 10000;
        Call (QueryStr "CAL:STAT?");
        Call (Query "CAL:SAT?");
        Print ("Error with instrument " +:+ blanks 18 +:+ "self-alignment" +:+ nl +:+
               "-113,Undefined header")]).
Proof. vm_compute. reflexivity. Qed.





Example save_channels_partial_file :
  files (save_channels Bench.partial Bench.shown Bench.linear 1
           (Bench.start Bench.session 0%nat ∅)).2 !! "/data/file.csv"
  = Some [CStr <$> ["time (s)"; "C_1 (V)"; "C_2 (V)"; "C_3 (V)"; "C_4 (V)"];
          CNum <$> [0 # 2; 2; 7; 10]%Q;
          CNum <$> [1 # 2; 2; 2; 2]%Q;
          CNum <$> [2 # 2; 5; 5; 5]%Q].
Proof. vm_compute. reflexivity. Qed.

(** C4 on an instrument that reports three segments. *)
Lemma save_history_one_file_per_segment_witness :
  ∃ w' ks,
    save_history Bench.steady Bench.shown Bench.linear 1
      (Bench.start Bench.session 0%nat ∅) = (Ret tt, w') ∧
    length ks = 3%nat ∧
    evolves (Bench.start Bench.session 0%nat ∅) w'
      (history_outputs Bench.session 1 [2; 3; 4] [0; 1; 2] ks) ∧
    size (files w') = 3%nat.
Proof.
  assert (Hhead : ∀ s, ∃ start stop count more,
            result (drv_query_bin_or_ascii_float_list Bench.steady
                      ("CHAN" +:+ pretty 1 +:+ ":DATA:HEAD?") s)
            = Value (start :: stop :: count :: more) ∧ 0 ≤ int_of_float count).
  { intros s. exists 0%Q, 1%Q, 3%Q, []. split; [reflexivity | by vm_compute]. }
  assert (Hava : ∀ s, ∃ r, result (drv_query_str Bench.steady "ACQ:AVA?" s) = Value r ∧
                           py_int r = Some 3).
  { intros s. exists "3". split; reflexivity. }
  destruct (save_history_one_file_per_segment Bench.steady Bench.shown Bench.linear
              (λ s, eq_refl) 1 Hhead (λ cmd s, eq_refl) 3 Hava 1
              (Bench.start Bench.session 0%nat ∅) [2; 3; 4])
    as (w' & ks & Hrun & Hlen & Hev & Hsize); [lia | reflexivity |].
  exists w', ks. split_and!; [exact Hrun | exact Hlen | exact Hev | exact Hsize].
Defined.

(** The files of the three segments, with the indices accumulating in the
    file name. *)
Example save_history_steady_files :
  saves (trace (save_history Bench.steady Bench.shown Bench.linear 1
                  (Bench.start Bench.session 0%nat ∅)).2)
  = ["/data/file1.csv"; "/data/file12.csv"; "/data/file123.csv"].
Proof. vm_compute. reflexivity. Qed.

(** C6 on the bench: a length of 100 samples is sent as the minimum. *)
Example acquire_steady_record_length :
  picked is_record_length
    (trace (acquire Bench.steady Bench.shown Bench.linear 1 "NSINGle" 50 false
              (Int 100) (Bench.start Bench.session 0%nat ∅)).2)
  = ["ACQ:POIN 5000.0"].
Proof. vm_compute. reflexivity. Qed.




(** * The further properties on the bench *)

(** X1 on an instrument that is never done, with the timeout of 15 seconds
    that [__init__] sets. *)
Lemma opc_check_gives_up_witness :
  ∃ w' es,
    opc_check Lab.busy 152 (Bench.start Bench.session 0%nat ∅) = (Ret tt, w') ∧
    trace w' = es ∧
    last es = Some (Print "OPC timeout.") ∧
    15000 < clock w' ∧
    writes es = [].
Proof.
  destruct (opc_check_gives_up Lab.busy 152 (Bench.start Bench.session 0%nat ∅) 15
              (λ s, eq_refl) eq_refl)
    as (w' & es & Hrun & Htr & Hlast & Hlate & Hwr & _); [simpl; lia |].
  exists w', es. simpl in *. split_and!; [done | done | done | lia | done].
Defined.

(** X6 on the four channels of the bench. *)
Lemma channel_select_switches_configured_channels_witness :
  ∃ w' es,
    channel_select Bench.steady 152 (Bench.start Bench.session 0%nat ∅) = (Ret tt, w') ∧
    trace w' = es ∧
    writes es = ["CHAN:AOFF"; "CHAN1:STAT ON"; "CHAN2:STAT ON"; "CHAN3:STAT ON";
                 "CHAN4:STAT ON"] ∧
    channels (self w') = ChanList [1; 2; 3; 4].
Proof.
  destruct (channel_select_switches_configured_channels Bench.steady 152
              (Bench.start Bench.session 0%nat ∅) 15
              (λ cmd s _, eq_refl) (λ s, ex_intro _ true eq_refl) eq_refl)
    as (w' & es & Hrun & Htr & Hwr & Hchan & _); [simpl; lia |].
  exists w', es. split_and!; [exact Hrun | exact Htr | exact Hwr | exact Hchan].
Defined.

(** X7 on an instrument that cannot be reached. *)
Lemma save_channels_fails_without_time_axis_witness :
  ∃ e w',
    save_channels Bench.unreachable Bench.shown Bench.linear 1
      (Bench.start Bench.session tt ∅) = (Raise e, w') ∧
    exn_cls e = TypeError ∧
    trace w' = [head_query 1;
                Print ("Channel 1 unavailable! " +:+ blanks 18 +:+
                       "Please check connection" +:+ nl)] ∧
    files w' = ∅.
Proof.
  destruct (save_channels_fails_without_time_axis Bench.unreachable Bench.shown
              Bench.linear 1 (Bench.start Bench.session tt ∅) 1 [2; 3; 4] "No session"
              eq_refl eq_refl)
    as (e & w' & Hrun & Hcls & Htr & Hfiles).
  exists e, w'. split_and!; [exact Hrun | exact Hcls | exact Htr | exact Hfiles].
Defined.

(** X8 on the same instrument: every command of [average] raises. *)
Lemma average_returns_boolean_witness :
  ∃ b w',
    average Bench.unreachable 12 50 (Bench.start Bench.session tt ∅) = (Ret b, w') ∧
    (b = true → last (trace w') = Some (Call (WriteStr "STOP"))) ∧
    (b = false →
     ∃ msg, last (trace w')
            = Some (Print ("An error occured while acquiring " +:+ blanks 18 +:+
                           "the data " +:+ nl +:+ msg))).
Proof.
  apply (average_returns_boolean Bench.unreachable 12 50
           (Bench.start Bench.session tt ∅)).
  simpl. lia.
Defined.

(** X10 on a single shot that is asked for 50. *)
Lemma acquire_single_takes_one_shot_witness :
  ∃ es,
    trace (acquire Bench.steady Bench.shown Bench.linear 1 "SINGle" 50 true
             (Float 5000000) (Bench.start Bench.session 0%nat ∅)).2 = es ∧
    (acquire Bench.steady Bench.shown Bench.linear 1 "SINGle" 50 true
       (Float 5000000) (Bench.start Bench.session 0%nat ∅)).1 = Ret true ∧
    picked is_shot_count es = ["ACQ:NSIN:COUN 1"].
Proof.
  destruct (acquire_single_takes_one_shot Bench.steady Bench.shown Bench.linear 1
              "SINGle" 50 true (Float 5000000) (Bench.start Bench.session 0%nat ∅)
              eq_refl eq_refl) as (es & Htr & Hcases).
  exists es. split; [exact Htr |].
  assert (Hret : (acquire Bench.steady Bench.shown Bench.linear 1 "SINGle" 50 true
                    (Float 5000000) (Bench.start Bench.session 0%nat ∅)).1 = Ret true)
    by (vm_compute; reflexivity).
  split; [exact Hret |].
  destruct Hcases as [[_ Hno] | Hp]; [by destruct Hno | exact Hp].
Defined.

(** X11 with two earlier saves on the disk and the deferred save on. *)
Lemma methods_overwrite_no_file_witness :
  files (save_channels Bench.steady Bench.shown Bench.linear 1
           (Bench.start Lab.saving 0%nat Bench.saved_twice)).2 !! "/data/file.csv"
  = Some [] ∧
  files (acquire Bench.steady Bench.shown Bench.linear 1 "NSINGle" 3 true
           (Float 5000000) (Bench.start Lab.saving 0%nat Bench.saved_twice)).2
    !! "/data/file.csv" = Some [].
Proof.
  destruct (methods_overwrite_no_file Bench.steady Bench.shown Bench.linear 1
              "NSINGle" 3 true (Float 5000000)
              (Bench.start Lab.saving 0%nat Bench.saved_twice) "/data/file.csv" [])
    as (Hsave & _ & Hacquire); [vm_compute; reflexivity |].
  split; [exact Hsave | exact Hacquire].
Defined.

(** X12 on an instrument that cannot average. *)
Lemma acquire_succeeds_when_average_fails_witness :
  ∃ w' es,
    acquire Lab.unaveraged Bench.shown Bench.linear 1 "AVERage" 50 true
      (Float 5000000) (Bench.start Bench.session 0%nat ∅) = (Ret true, w') ∧
    trace w' = es ∧
    last es = Some (Print ("An error occured while acquiring " +:+ blanks 18 +:+
                           "the data " +:+ nl +:+ "-221,Settings conflict")).
Proof.
  assert (Hacc : ∀ cmd s, String.prefix "ACQ:TYPE" cmd = false →
                          result (drv_write_str Lab.unaveraged cmd s) = Value tt).
  { intros cmd s H. simpl. by rewrite H. }
  destruct (acquire_succeeds_when_average_fails Lab.unaveraged Bench.shown Bench.linear
              1 "AVERage" 50 true (Float 5000000) (Bench.start Bench.session 0%nat ∅)
              "-221,Settings conflict" eq_refl eq_refl Hacc (λ s, eq_refl)
              (λ s, eq_refl))
    as (w' & es & Hrun & Htr & Hlast & _); [lia |].
  exists w', es. split_and!; [exact Hrun | exact Htr | exact Hlast].
Defined.

(** X13 on an instrument with three segments in its history. *)
Lemma save_history_leaves_extended_name_witness :
  ∃ w',
    save_history Bench.steady Bench.shown Bench.linear 1
      (Bench.start Bench.session 0%nat ∅) = (Ret tt, w') ∧
    fname (self w') = "file123".
Proof.
  assert (Hhead : ∀ s, ∃ start stop count more,
            result (drv_query_bin_or_ascii_float_list Bench.steady
                      ("CHAN" +:+ pretty 1 +:+ ":DATA:HEAD?") s)
            = Value (start :: stop :: count :: more) ∧ 0 ≤ int_of_float count).
  { intros s. exists 0%Q, 1%Q, 3%Q, []. split; [reflexivity | by vm_compute]. }
  assert (Hava : ∀ s, ∃ r, result (drv_query_str Bench.steady "ACQ:AVA?" s) = Value r ∧
                           py_int r = Some 3).
  { intros s. exists "3". split; reflexivity. }
  destruct (save_history_leaves_extended_name Bench.steady Bench.shown Bench.linear
              (λ cmd s, eq_refl) (λ s, eq_refl) 1 Hhead 3 Hava 1
              (Bench.start Bench.session 0%nat ∅) [2; 3; 4])
    as (w' & Hrun & Hself); [lia | reflexivity |].
  exists w'. split; [exact Hrun |]. rewrite Hself. reflexivity.
Defined.

(** X15 on the same instrument, with the deferred save on. *)
Lemma acquire_saves_when_asked_witness :
  ∃ w',
    acquire Bench.steady Bench.shown Bench.linear 1 "NSINGle" 2 true (Float 5000000)
      (Bench.start Lab.saving 0%nat ∅) = (Ret true, w') ∧
    size (files w') = 3%nat.
Proof.
  assert (Hq : ∀ cmd s, ∃ r, result (drv_query Bench.steady cmd s) = Value r).
  { intros cmd s. simpl. repeat case_bool_decide; eauto. }
  assert (Hcoun : ∀ s r, result (drv_query Bench.steady "ACQ:COUN?" s) = Value r →
                         py_int r = Some 25).
  { intros s r [= <-]. reflexivity. }
  assert (Hhead : ∀ s, ∃ start stop count more,
            result (drv_query_bin_or_ascii_float_list Bench.steady
                      ("CHAN" +:+ pretty 1 +:+ ":DATA:HEAD?") s)
            = Value (start :: stop :: count :: more) ∧ 0 ≤ int_of_float count).
  { intros s. exists 0%Q, 1%Q, 3%Q, []. split; [reflexivity | by vm_compute]. }
  assert (Hava : ∀ s, ∃ r, result (drv_query_str Bench.steady "ACQ:AVA?" s) = Value r ∧
                           py_int r = Some 3).
  { intros s. exists "3". split; reflexivity. }
  destruct (acquire_saves_when_asked Bench.steady Bench.shown Bench.linear
              (λ cmd s, eq_refl) (λ s, eq_refl) Hq 25 Hcoun (λ s, eq_refl) 1 Hhead 3 Hava
              1 "NSINGle" 2 true (Float 5000000) (Bench.start Lab.saving 0%nat ∅)
              [2; 3; 4])
    as (w' & Hrun & Hsize & _); [lia | reflexivity | reflexivity | reflexivity |].
  exists w'. split; [exact Hrun | exact Hsize].
Defined.

(** X14 on a multi-single run that asks for 50 shots of 100 samples. *)
Lemma acquire_sends_its_commands_witness :
  ∃ w' es,
    acquire Bench.steady Bench.shown Bench.linear 1 "NSINGle" 50 false (Int 100)
      (Bench.start Bench.session 0%nat ∅) = (Ret true, w') ∧
    trace w' = es ∧
    writes es = ["CHAN:AOFF"; "CHAN1:STAT ON"; "CHAN2:STAT ON"; "CHAN3:STAT ON";
                 "CHAN4:STAT ON"; "ACQ:SEGM:STAT ON"; "ACQ:POIN:AUT OFF";
                 "ACQ:MEM DMEM"; "ACQ:POIN 5000.0"; "ACQ:TYPE REFR";
                 "ACQ:NSIN:COUN 25"; "RUNS"].
Proof.
  assert (Hq : ∀ cmd s, ∃ r, result (drv_query Bench.steady cmd s) = Value r).
  { intros cmd s. simpl. repeat case_bool_decide; eauto. }
  assert (Hcoun : ∀ s r, result (drv_query Bench.steady "ACQ:COUN?" s) = Value r →
                         py_int r = Some 25).
  { intros s r [= <-]. reflexivity. }
  destruct (acquire_sends_its_commands Bench.steady Bench.shown Bench.linear
              (λ cmd s, eq_refl) (λ s, eq_refl) Hq 25 Hcoun (λ s, eq_refl)
              1 "NSINGle" 50 false (Int 100) (Bench.start Bench.session 0%nat ∅))
    as (w' & es & Hrun & Htr & Hwr); [lia | reflexivity | reflexivity |].
  exists w', es. split_and!; [exact Hrun | exact Htr |].
  rewrite Hwr. vm_compute. reflexivity.
Defined.


(** X17 on an instrument that opens. *)
Lemma constructor_sets_up_session_witness :
  ∃ w' es,
    RS_Scopes Bench.steady "/dropbox/" "192.168.0.10" "LAN" true
      (Bench.start fresh_object 0%nat ∅) = (Ret tt, w') ∧
    trace w' = es ∧
    calls es = [AssertMinimumVersion "1.50.0"; Open "TCPIP::192.168.0.10::INSTR";
                QueryStr "SYST:NAME?"; ClearStatus; Reset; WriteStr "CHAN:AON"] ∧
    self w' = opened "/dropbox/" true.
Proof.
  destruct (constructor_sets_up_session Bench.steady "/dropbox/" "192.168.0.10" "LAN"
              true (Bench.start fresh_object 0%nat ∅) "TCPIP::192.168.0.10::INSTR"
              eq_refl (λ v s, eq_refl) (λ s, eq_refl)
              (λ s, ex_intro _ "RTB2004" eq_refl)
              (λ s, eq_refl) (λ s, eq_refl) (λ s, eq_refl))
    as (w' & es & Hrun & Htr & Hcalls & Hself).
  exists w', es. split_and!; [exact Hrun | exact Htr | exact Hcalls | exact Hself].
Defined.


Lemma broken_quiet {D} source target (w : world (D := D)) :
  self (Lab.broken source target w).2 = self w ∧
  ∃ es, trace (Lab.broken source target w).2 = trace w ++ es ∧ writes es = [].
Proof. split; [done |]. exists []. by rewrite app_nil_r. Qed.


(** X19 with a transfer that fails. *)
Lemma screenshot_keeps_copy_when_transfer_fails_witness :
  ∃ es,
    trace (screenshot Bench.steady Lab.broken 1 (Bench.start Bench.session 0%nat ∅)).2
    = es ∧
    picked is_delete es = [] ∧
    (screenshot Bench.steady Lab.broken 1 (Bench.start Bench.session 0%nat ∅)).1
    ≠ Ret true.
Proof.
  destruct (screenshot_keeps_copy_when_transfer_fails Bench.steady Lab.broken
              broken_quiet 1 (Bench.start Bench.session 0%nat ∅))
    as (es & Htr & Hp & Hret); [intros source target w0; discriminate |].
  exists es. split_and!; [exact Htr | exact Hp | exact Hret].
Defined.


(** X22 on an instrument that is never done. *)
Lemma save_channels_waits_without_timeout_witness :
  (save_channels Lab.busy Bench.shown Bench.linear 200
     (Bench.start Bench.session 0%nat ∅)).1 = Hang.
Proof.
  apply (save_channels_waits_without_timeout Lab.busy Bench.shown Bench.linear 200
           (Bench.start Bench.session 0%nat ∅) 1 [2; 3; 4] 15);
    [intros s; reflexivity | reflexivity | reflexivity |].
  intros s. exists 0%Q, 1%Q, 3%Q, []. split; [reflexivity | by vm_compute].
Defined.

(** X24 on an instrument whose status always reads [RUN]. *)
Lemma calibration_waits_while_running_witness :
  (calibration Bench.stalled 100 (Bench.start Bench.session 0%nat ∅)).1 = Hang.
Proof.
  apply (calibration_waits_while_running Bench.stalled 100
           (Bench.start Bench.session 0%nat ∅)); intros s; reflexivity.
Defined.
